(** * OLMAR: Online Moving Average Reversion portfolio (olmar.py)

    A shallow embedding of the class [OLMAR] of [olmar.py] and the
    properties of its window extractor, price-relative predictor,
    allocation projector, hyperparameter tuner and constructor.

    Numbers.  The source computes with NumPy float64 values.  The model
    computes with exact rationals ([Q]): rounding, overflow and
    underflow are not modelled, and results are compared with [==].  The non-finite values that float64
    division by zero produces are kept ([npfloat]) where the source
    divides by a scalar that can be zero, the 1-norm of the new
    allocation.  A quote that is missing is recorded as price 0.

    Shapes.  NumPy arrays are rectangular and the asset axis has a fixed
    size; the predicate [wf_market] states it for the nested lists of
    the model.  Along the day axis the model raises [IndexError] where
    the source does. *)

From Stdlib Require Import List ZArith QArith Qabs Lia Bool String.
From Stdlib Require Import Lqa.
Import ListNotations.

Local Open Scope Z_scope.
Local Open Scope Q_scope.

(** ** Exceptions and results *)

Inductive exn : Type :=
| Exception (msg : string)
| IndexError
| KeyError (key : string)
| ValueError.

Inductive result (A : Type) : Type :=
| Ok (a : A)
| Raise (e : exn).

Arguments Ok {A} a.
Arguments Raise {A} e.

Definition bind {A B : Type} (r : result A) (k : A -> result B) : result B :=
  match r with
  | Ok a => k a
  | Raise e => Raise e
  end.

Notation "x <- r ;; k" := (bind r (fun x => k))
  (at level 61, r at next level, right associativity).

Fixpoint mapM {A B : Type} (f : A -> result B) (l : list A) : result (list B) :=
  match l with
  | [] => Ok []
  | a :: l' => b <- f a ;; bs <- mapM f l' ;; Ok (b :: bs)
  end.

(** ** Python sequences: indexing and slicing *)

Module Py.

Definition len {A : Type} (l : list A) : Z := Z.of_nat (List.length l).

(** [l[i]]: a negative index counts from the end; out of range raises. *)
Definition index {A : Type} (l : list A) (i : Z) : result A :=
  let i' := (if i <? 0 then i + len l else i)%Z in
  if (i' <? 0)%Z then Raise IndexError
  else match nth_error l (Z.to_nat i') with
       | Some a => Ok a
       | None => Raise IndexError
       end.

(** The bound of a slice: negative counts from the end, then clipped
    to [0, len]. *)
Definition clip (n i : Z) : Z :=
  (if i <? 0 then Z.max (i + n) 0 else Z.min i n)%Z.

(** [l[start:stop]] *)
Definition slice {A : Type} (l : list A) (start stop : Z) : list A :=
  let a := clip (len l) start in
  let b := clip (len l) stop in
  firstn (Z.to_nat (b - a)) (skipn (Z.to_nat a) l).

(** [l[start:]] *)
Definition slice_from {A : Type} (l : list A) (start : Z) : list A :=
  skipn (Z.to_nat (clip (len l) start)) l.

(** [max(a, b)] and [min(a, b)] of the builtins: the first argument is
    kept unless the second is strictly better. *)
Definition max (a b : Q) : Q := if Qle_bool b a then a else b.
Definition min (a b : Q) : Q := if Qle_bool a b then a else b.

(** [int(x)] of a float: truncation toward zero. *)
Definition int (x : Q) : Z := Z.quot (Qnum x) (Zpos (Qden x)).

(** [max(l)] of a list; [ValueError] on the empty list. *)
Definition max_list (l : list Q) : result Q :=
  match l with
  | [] => Raise ValueError
  | x :: l' => Ok (fold_left max l' x)
  end.

(** [l.index(x)]: position of the first element equal to [x]. *)
Fixpoint index_of (l : list Q) (x : Q) : result nat :=
  match l with
  | [] => Raise ValueError
  | y :: l' => if Qeq_bool y x then Ok 0%nat
               else i <- index_of l' x ;; Ok (S i)
  end.

(** [itertools.product(xs, ys)]: the last component varies fastest. *)
Definition product {A B : Type} (xs : list A) (ys : list B) : list (A * B) :=
  flat_map (fun x => map (fun y => (x, y)) ys) xs.

(** [d[k]] of a dictionary kept as an association list. *)
Fixpoint getitem (d : list (string * Q)) (k : string) : result Q :=
  match d with
  | [] => Raise (KeyError k)
  | (k', v) :: d' => if String.eqb k' k then Ok v else getitem d' k
  end.

End Py.

(** ** NumPy vectors over exact rationals *)

Module Np.

(** A float64 value that may be non-finite. *)
Inductive npfloat : Type :=
| Finite (q : Q)
| PInf
| NInf
| NaN.

Definition Qlt_bool (x y : Q) : bool := negb (Qle_bool y x).

(** [x / y] on float64 scalars: no exception, division by zero gives
    an infinity, or nan for [0 / 0]. *)
Definition div (x y : Q) : npfloat :=
  if Qeq_bool y 0 then
    (if Qeq_bool x 0 then NaN else if Qlt_bool 0 x then PInf else NInf)
  else Finite (x / y).

(** [a * x] for a scalar [a] that may be non-finite and a finite [x]. *)
Definition mul (a : npfloat) (x : Q) : npfloat :=
  match a with
  | Finite q => Finite (q * x)
  | PInf => if Qeq_bool x 0 then NaN else if Qlt_bool 0 x then PInf else NInf
  | NInf => if Qeq_bool x 0 then NaN else if Qlt_bool 0 x then NInf else PInf
  | NaN => NaN
  end.

Definition sum (v : list Q) : Q := fold_right Qplus 0 v.

Definition zeros (n : nat) : list Q := repeat 0 n.
Definition ones (n : nat) : list Q := repeat 1 n.

(** [a * v], [u - v] and [np.dot(u, v)] on vectors of one shape. *)
Definition scale (a : Q) (v : list Q) : list Q := map (Qmult a) v.
Definition sub (u v : list Q) : list Q :=
  map (fun p => fst p - snd p) (combine u v).
Definition dot (u v : list Q) : Q :=
  sum (map (fun p => fst p * snd p) (combine u v)).

(** [np.mean(v)]; NumPy answers nan on an empty vector, the model 0
    (see [new_b_no_available]: the value is not read then). *)
Definition mean (v : list Q) : Q := sum v / inject_Z (Py.len v).

(** [np.linalg.norm(v, ord=1)] *)
Definition norm1 (v : list Q) : Q := sum (map Qabs v).

(** The square of [np.linalg.norm(v, ord=2)].  The source tests the
    norm against 0 and squares it again; the root of a sum of squares
    is 0 exactly when the sum is, and its square is the sum. *)
Definition norm2_sq (v : list Q) : Q := sum (map (fun x => x * x) v).

(** [v[idxs]]: selection by a list of positions. *)
Definition take (v : list Q) (idxs : list nat) : list Q :=
  map (fun i => nth i v 0) idxs.

(** Column [j] of a matrix given by rows. *)
Definition column (m : list (list Q)) (j : nat) : list Q :=
  map (fun row => nth j row 0) m.

(** [np.mean(m, axis=0)]: the mean of every column. *)
Definition mean_axis0 (m : list (list Q)) : list Q :=
  match m with
  | [] => []
  | r :: _ => map (fun j => mean (column m j)) (seq 0 (List.length r))
  end.

End Np.

Import Np.

(** ** Data model *)

(** The market-data provider: open and close prices indexed by day, then
    by asset ([get_op(relative=False)] and [get_cl(relative=False)]). *)
Record MarketData : Type := {
  get_op : list (list Q);
  get_cl : list (list Q)
}.

(** The state of the base class [Portfolio] that [olmar.py] reads. *)
Record Portfolio : Type := {
  data : MarketData;
  data_train : option MarketData;
  b : list Q;
  num_stocks : nat;
  b_history : list (list Q)
}.

(** An [OLMAR] instance: the base state and the attributes that
    [OLMAR.__init__] sets. *)
Record OLMAR : Type := {
  base : Portfolio;
  window : Z;
  eps : Q;
  window_hist : list Z;
  eps_hist : list Q;
  window_range : list Z;
  eps_range : list Q
}.

(** Arrays of one market share the day count and the asset count. *)
Definition wf_market (n : nat) (m : MarketData) : Prop :=
  List.length (get_op m) = List.length (get_cl m) /\
  Forall (fun row => List.length row = n) (get_op m) /\
  Forall (fun row => List.length row = n) (get_cl m).

Definition wf (self : OLMAR) : Prop :=
  let p := base self in
  wf_market (num_stocks p) (data p) /\
  match data_train p with
  | Some t => wf_market (num_stocks p) t
  | None => True
  end /\
  List.length (b p) = num_stocks p.

(** ** The helpers of [util] *)

Module Util.

(** Modelled from the spec: [util.get_avail_stocks] is not part of the
    source.  An asset is unavailable on a day when its open price is
    non-positive or missing. *)
Definition available (p : Q) : bool := Qlt_bool 0 p.

Definition get_avail_stocks (op : list Q) : list bool := map available op.

(** Modelled from the spec: [util.get_available_inds] is not part of
    the source.  The positions of the available assets, in order. *)
Definition get_available_inds (avail_stocks : list bool) : list nat :=
  filter (fun i => nth i avail_stocks false)
         (seq 0 (List.length avail_stocks)).

(** Modelled from the spec: [util.silent_divide] is not part of the
    source.  Elementwise division that returns zero for assets whose
    opening price is zero or unavailable. *)
Definition silent_divide (x y : list Q) : list Q :=
  map (fun p => if available (snd p) then fst p / snd p else 0)
      (combine x y).

(** Modelled from the spec: [util.get_uniform_allocation] is not part
    of the source.  The uniform allocation scaled so that unavailable
    assets receive zero weight, normalized to sum to 1 across the
    available assets. *)
Definition get_uniform_allocation (num_stocks : nat) (op : list Q)
  : list Q :=
  let avail_stocks := get_avail_stocks op in
  let num_avail := inject_Z (Py.len (get_available_inds avail_stocks)) in
  map (fun i => if nth i avail_stocks false then 1 / num_avail else 0)
      (seq 0 num_stocks).

End Util.

(** [x is None] *)
Definition is_None {A : Type} (x : option A) : bool :=
  match x with
  | None => true
  | Some _ => false
  end.

(** [v[i] = x] on an array. *)
Fixpoint setitem (v : list Q) (i : nat) (x : Q) : list Q :=
  match v, i with
  | [], _ => []
  | _ :: v', O => x :: v'
  | y :: v', S i' => y :: setitem v' i' x
  end.

(** Default candidate ranges of the constructor: [range(5, 30, 3)] and
    [np.arange(1.1, 5.1, 0.2)]. *)
Definition default_window_range : list Z :=
  map (fun k => (5 + 3 * Z.of_nat k)%Z) (seq 0 9).
Definition default_eps_range : list Q :=
  map (fun k => (11 # 10) + (2 # 10) * inject_Z (Z.of_nat k)) (seq 0 20).

Notation "' pat <- r ;; k" :=
  (bind r (fun x => match x with pat => k end))
  (at level 61, pat pattern, r at next level, right associativity).

Local Open Scope string_scope.
Local Open Scope list_scope.

(** ** The class [OLMAR] *)

Section Strategy.

(** Collaborators that are not part of the source: the constructor of
    the base class [Portfolio] (market data, training data, start,
    stop and initial allocation are the arguments it receives here),
    [util.load_hyperparams], and the Sharpe ratio
    [util.empirical_sharpe_ratio(p.get_dollars_history())] of an
    instance [p] after [p.run(start, stop)]. *)
Variable Portfolio_init :
  MarketData -> option MarketData -> Z -> option Z -> option (list Q) ->
  Portfolio.
Variable load_hyperparams : string -> list string -> list (string * Q).
Variable run_sharpe : OLMAR -> Z -> Z -> Q.

(** [OLMAR.__init__] *)
Definition OLMAR_init (market_data : MarketData)
    (market_data_train : option MarketData) (start : Z) (stop : option Z)
    (window : Z) (eps : Q) (window_range : list Z) (eps_range : list Q)
    (init_b : option (list Q)) (past_results_dir : option string)
  : result OLMAR :=
  if Qle_bool eps 1 then Raise (Exception "Epsilon must be > 1.")
  else if (window <? 1)%Z then
    Raise (Exception
      "Window length must be at least 1, and it is recommended that the window be >= 3.")
  else
    ' (window, eps) <-
      match past_results_dir with
      | Some dir =>
          let hyperparams_dict :=
            load_hyperparams dir ["Window"; "Epsilon"] in
          w <- Py.getitem hyperparams_dict "Window" ;;
          let window := Py.int w in
          eps <- Py.getitem hyperparams_dict "Epsilon" ;;
          Ok (window, eps)
      | None => Ok (window, eps)
      end ;;
    Ok {| base := Portfolio_init market_data market_data_train
                    start stop init_b;
          window := window;
          eps := eps;
          window_hist := [window];
          eps_hist := [eps];
          window_range := window_range;
          eps_range := eps_range |}.

(** [OLMAR.get_window_prices] *)
Definition get_window_prices (self : OLMAR) (day window : Z)
  : result (Z * list (list Q) * list Q) :=
  today_op <- Py.index (get_op (data (base self))) day ;;
  match data_train (base self), (window <=? day)%Z with
  | Some train, false =>
      (* Use the training data to obtain part of the window *)
      let window_start := (day - window)%Z in
      let window_stop := day in
      if (window_stop =? 0)%Z then
        let window_cl := Py.slice_from (get_cl train) window_start in
        Ok (window, window_cl, today_op)
      else
        let window_cl_past := Py.slice_from (get_cl train) window_start in
        let window_cl_cur := Py.slice (get_cl (data (base self))) 0 day in
        let window_cl := window_cl_past ++ window_cl_cur in
        Ok (window, window_cl, today_op)
  | _, _ =>
      (* data_train is None or day >= window *)
      let window := if (day <? window)%Z then day else window in
      let window_cl :=
        Py.slice (get_cl (data (base self))) (day - window) day in
      Ok (window, window_cl, today_op)
  end.

(** [OLMAR.predict_price_relatives] *)
Definition predict_price_relatives (self : OLMAR) (day : Z)
  : result (list Q) :=
  ' (_, window_cl, today_op) <- get_window_prices self day (window self) ;;
  let window_prices := window_cl ++ [today_op] in
  let avg_prices := mean_axis0 window_prices in
  let price_rel := Util.silent_divide avg_prices today_op in
  Ok price_rel.

(** [OLMAR.compute_lambda] *)
Definition compute_lambda (self : OLMAR) (ppr_avail : list Q)
    (mean_ppr : Q) (avail_idxs : list nat) : Q :=
  let num_avail_stocks := List.length ppr_avail in
  let l2_norm_sq :=
    norm2_sq (sub ppr_avail (scale mean_ppr (ones num_avail_stocks))) in
  if Qeq_bool l2_norm_sq 0 then 0
  else
    let avail_b := take (b (base self)) avail_idxs in
    let predicted_under_eps := eps self - dot avail_b ppr_avail in
    Py.max 0 (predicted_under_eps / l2_norm_sq).

(** The loop of [OLMAR.get_new_allocation] that fills [new_b]. *)
Definition new_b_of (self : OLMAR) (predicted_price_rel : list Q)
    (mean_price_rel lam : Q) : list Q :=
  fold_left
    (fun new_b i =>
       let ppr := nth i predicted_price_rel 0 in
       if Qlt_bool 0 ppr then
         setitem new_b i
           (nth i (b (base self)) 0 + lam * (ppr - mean_price_rel))
       else new_b)
    (seq 0 (num_stocks (base self)))
    (zeros (num_stocks (base self))).

(** [OLMAR.get_new_allocation] *)
Definition get_new_allocation (self : OLMAR) (day : Z) (init : bool)
  : result (list npfloat) :=
  if init && is_None (data_train (base self)) then
    cur_day_op <- Py.index (get_op (data (base self))) day ;;
    Ok (map Finite
          (Util.get_uniform_allocation (num_stocks (base self)) cur_day_op))
  else
    predicted_price_rel <- predict_price_relatives self day ;;
    today_op <- Py.index (get_op (data (base self))) day ;;
    let avail_stocks := Util.get_avail_stocks today_op in
    let avail_idxs := Util.get_available_inds avail_stocks in
    let ppr_avail := take predicted_price_rel avail_idxs in
    let mean_price_rel := mean ppr_avail in
    let lam := compute_lambda self ppr_avail mean_price_rel avail_idxs in
    let lam := Py.min 100000 lam in
    let new_b := new_b_of self predicted_price_rel mean_price_rel lam in
    let sum_b := norm1 new_b in
    Ok (map (Np.mul (Np.div 1 sum_b)) new_b).

(** [OLMAR.tune_hyperparams]; [b_history] is kept by day, so that
    [b_history[:, k]] is its entry [k].  Every call that can raise comes
    before the four assignments at the end, so that [Raise] stands for
    an exception that leaves the instance as it was. *)
Definition tune_hyperparams (self : OLMAR) (cur_day : Z) : result OLMAR :=
  let tune_duration := 10%Z in
  if (tune_duration <? cur_day)%Z then
    let start_day := (cur_day - tune_duration)%Z in
    let hyp_combos := Py.product (window_range self) (eps_range self) in
    init_b <- Py.index (b_history (base self)) (cur_day - tune_duration) ;;
    sharpe_ratios <-
      mapM (fun c : Z * Q =>
              let (win, eps) := c in
              cur_portfolio <-
                OLMAR_init (data (base self)) None start_day (Some cur_day)
                  win eps default_window_range default_eps_range
                  (Some init_b) None ;;
              Ok (run_sharpe cur_portfolio start_day cur_day))
           hyp_combos ;;
    m <- Py.max_list sharpe_ratios ;;
    i <- Py.index_of sharpe_ratios m ;;
    ' (best_window, best_eps) <- Py.index hyp_combos (Z.of_nat i) ;;
    Ok {| base := base self;
          window := best_window;
          eps := best_eps;
          window_hist := window_hist self ++ [best_window];
          eps_hist := eps_hist self ++ [best_eps];
          window_range := window_range self;
          eps_range := eps_range self |}
  else Ok self.

End Strategy.

(** ** Specification vocabulary *)

(** The values of [ppr_avail] and of the limited [lam] in
    [get_new_allocation], for the predicted relatives and the opening
    prices of the day. *)
Definition ppr_avail_of (predicted_price_rel today_op : list Q) : list Q :=
  let avail_stocks := Util.get_avail_stocks today_op in
  let avail_idxs := Util.get_available_inds avail_stocks in
  take predicted_price_rel avail_idxs.

Definition lam_of (self : OLMAR) (predicted_price_rel today_op : list Q)
  : Q :=
  let avail_stocks := Util.get_avail_stocks today_op in
  let avail_idxs := Util.get_available_inds avail_stocks in
  let ppr_avail := take predicted_price_rel avail_idxs in
  let mean_price_rel := mean ppr_avail in
  let lam := compute_lambda self ppr_avail mean_price_rel avail_idxs in
  Py.min 100000 lam.

(** Rows of the days [a, b) of a series. *)
Definition days {A : Type} (l : list A) (a b : nat) : list A :=
  firstn (b - a) (skipn a l).

(** The last [k] rows of a series (all of it when it is shorter). *)
Definition tail_rows {A : Type} (l : list A) (k : nat) : list A :=
  skipn (List.length l - k) l.

(** All entries of a vector are equal. *)
Definition all_equal (v : list Q) : Prop :=
  forall x y, In x v -> In y v -> x == y.


(** One iteration of a loop that overwrites the entries chosen by
    [cond] with [val]. *)
Definition fill_step (cond : nat -> bool) (val : nat -> Q)
    (acc : list Q) (i : nat) : list Q :=
  if cond i then setitem acc i (val i) else acc.


(** No close price of the live series or of the training series is
    negative. *)
Definition nonneg_market (m : MarketData) : Prop :=
  Forall (Forall (fun p => 0 <= p)) (get_cl m).

Definition nonneg_closes (self : OLMAR) : Prop :=
  nonneg_market (data (base self)) /\
  match data_train (base self) with
  | Some t => nonneg_market t
  | None => True
  end.

(** The current allocation with the weight of every asset without a
    positive predicted relative replaced by zero. *)
Definition masked_b (self : OLMAR) (predicted_price_rel : list Q) : list Q :=
  map (fun i => if Qlt_bool 0 (nth i predicted_price_rel 0)
                then nth i (b (base self)) 0 else 0)
      (seq 0 (num_stocks (base self))).

(** ** Example instances *)

Definition mk_olmar (m : MarketData) (train : option MarketData)
    (b0 : list Q) (n : nat) (w : Z) (e : Q) : OLMAR :=
  {| base := {| data := m; data_train := train; b := b0;
                num_stocks := n; b_history := [] |};
     window := w; eps := e;
     window_hist := [w]; eps_hist := [e];
     window_range := default_window_range;
     eps_range := default_eps_range |}.

(** Three assets, one training day and two live days. *)
Definition train3 : MarketData :=
  {| get_op := [[10; 20; 30]]; get_cl := [[10; 20; 30]] |}.
Definition live3 : MarketData :=
  {| get_op := [[10; 20; 30]; [12; 18; 33]];
     get_cl := [[11; 19; 33]; [12; 18; 30]] |}.
Definition uniform3 : list Q := [1 # 3; 1 # 3; 1 # 3].
Definition olmar3 : OLMAR :=
  mk_olmar live3 (Some train3) uniform3 3 1 (11 # 10).
Definition olmar3_live : OLMAR :=
  mk_olmar live3 None uniform3 3 1 (11 # 10).

(** Two assets; the whole capital is in the asset that is predicted to
    double. *)
Definition live2 : MarketData :=
  {| get_op := [[1; 1]; [1; 1]]; get_cl := [[3; 1]; [1; 1]] |}.
Definition olmar2 : OLMAR := mk_olmar live2 None [1; 0] 2 1 (11 # 10).

(** Three assets, none of them quoted on the second day. *)
Definition closed3 : MarketData :=
  {| get_op := [[10; 20; 30]; [0; 0; 0]];
     get_cl := [[11; 19; 33]; [0; 0; 0]] |}.
Definition olmar_closed : OLMAR :=
  mk_olmar closed3 None uniform3 3 1 (11 # 10).

(** Three assets, the second one not quoted on the first day. *)
Definition partial3 : MarketData :=
  {| get_op := [[10; 0; 30]]; get_cl := [[11; 0; 33]] |}.
Definition olmar_partial : OLMAR :=
  mk_olmar partial3 None uniform3 3 1 (11 # 10).

(** A base-class constructor, stored results with an epsilon and a
    window that the constructor would refuse as arguments, and a trial
    score that depends on the window alone. *)
Definition base_init (m : MarketData) (train : option MarketData)
    (start : Z) (stop : option Z) (init_b : option (list Q)) : Portfolio :=
  {| data := m; data_train := train;
     b := match init_b with Some v => v | None => [] end;
     num_stocks := match get_op m with row :: _ => List.length row | [] => O end;
     b_history := [] |}.
Definition stored_results (dir : string) (keys : list string)
  : list (string * Q) :=
  [("Window", 0); ("Epsilon", 1 # 2)].
Definition window_score (p : OLMAR) (start stop : Z) : Q :=
  inject_Z (window p).

(** An instance with twelve days of allocation history and a two by two
    grid of candidates. *)
Definition olmar_tuned : OLMAR :=
  {| base := {| data := live3; data_train := None; b := uniform3;
                num_stocks := 3; b_history := repeat uniform3 12 |};
     window := 1; eps := 11 # 10;
     window_hist := [1%Z]; eps_hist := [11 # 10];
     window_range := [1%Z; 2%Z];
     eps_range := [12 # 10; 15 # 10] |}.


(** Stored results without any key, and with the window alone. *)
Definition stored_nothing (dir : string) (keys : list string)
  : list (string * Q) := [].
Definition stored_window_only (dir : string) (keys : list string)
  : list (string * Q) := [("Window", 7)].

(** Grids of candidates without any epsilon, and with an epsilon that
    the constructor refuses. *)
Definition with_eps_range (self : OLMAR) (er : list Q) : OLMAR :=
  {| base := base self; window := window self; eps := eps self;
     window_hist := window_hist self; eps_hist := eps_hist self;
     window_range := window_range self; eps_range := er |}.
Definition olmar_no_eps : OLMAR := with_eps_range olmar_tuned [].

(** The instance [olmar_tuned] after the tuning step of day 11 with the
    score [window_score]. *)
Definition olmar_tuned_after : OLMAR :=
  {| base := base olmar_tuned;
     window := 2; eps := 12 # 10;
     window_hist := [1%Z; 2%Z]; eps_hist := [11 # 10; 12 # 10];
     window_range := window_range olmar_tuned;
     eps_range := eps_range olmar_tuned |}.

Ltac wf_example :=
  unfold wf, wf_market; cbn; repeat split; repeat constructor.

(** ** Facts on Python indexing and slicing *)

Lemma index_in_range {A : Type} (l : list A) (i : Z) :
  (0 <= i < Py.len l)%Z ->
  exists a, Py.index l i = Ok a /\ nth_error l (Z.to_nat i) = Some a.
Proof.
  intros [H0 H1]. unfold Py.index, Py.len in *.
  destruct (i <? 0)%Z eqn:E; [apply Z.ltb_lt in E; lia|].
  rewrite E.
  destruct (nth_error l (Z.to_nat i)) as [a|] eqn:N.
  - exists a. split; reflexivity.
  - apply nth_error_None in N. lia.
Qed.

Lemma slice_days {A : Type} (l : list A) (a b : Z) :
  (0 <= a <= b)%Z -> (b <= Py.len l)%Z ->
  Py.slice l a b = days l (Z.to_nat a) (Z.to_nat b).
Proof.
  intros Hab Hb. unfold Py.slice, Py.clip, days.
  destruct (a <? 0)%Z eqn:Ea; [apply Z.ltb_lt in Ea; lia|].
  destruct (b <? 0)%Z eqn:Eb; [apply Z.ltb_lt in Eb; lia|].
  rewrite !Z.min_l by lia.
  rewrite Z2Nat.inj_sub by lia. reflexivity.
Qed.

Lemma days_length {A : Type} (l : list A) (a b : nat) :
  (a <= b)%nat -> (b <= List.length l)%nat ->
  List.length (days l a b) = (b - a)%nat.
Proof.
  intros Hab Hb. unfold days.
  rewrite length_firstn, length_skipn. lia.
Qed.

Lemma slice_from_tail {A : Type} (l : list A) (start : Z) :
  (start < 0)%Z ->
  Py.slice_from l start = tail_rows l (Z.to_nat (- start)).
Proof.
  intros Hs. unfold Py.slice_from, Py.clip, tail_rows, Py.len.
  destruct (start <? 0)%Z eqn:E; [|apply Z.ltb_ge in E; lia].
  f_equal. lia.
Qed.

Lemma tail_rows_length {A : Type} (l : list A) (k : nat) :
  List.length (tail_rows l k) = Nat.min k (List.length l).
Proof.
  unfold tail_rows. rewrite length_skipn. lia.
Qed.

(** ** Window extractor *)

(** C6: on a day of the live series and for a window that is not
    negative, [get_window_prices] returns the day's opening prices and
    (1) for [day >= window] the requested window with the closes of the
    live days [day - window, day), exactly [window] rows;
    (2) for [day < window] without training series the window [day] with
    the closes of the live days [0, day), no row at all on day 0;
    (3) for [day < window] with a training series the requested window
    with the last [window - day] training closes followed by the closes
    of the live days [0, day), which are none on day 0. *)
Theorem get_window_prices_spec (self : OLMAR) (day window : Z) :
  wf self ->
  (0 <= day < Py.len (get_op (data (base self))))%Z ->
  (0 <= window)%Z ->
  exists today_op,
    nth_error (get_op (data (base self))) (Z.to_nat day) = Some today_op /\
    let cl := get_cl (data (base self)) in
    ((window <= day)%Z ->
       get_window_prices self day window
       = Ok (window, days cl (Z.to_nat (day - window)) (Z.to_nat day), today_op)
       /\ Py.len (days cl (Z.to_nat (day - window)) (Z.to_nat day)) = window) /\
    ((day < window)%Z -> data_train (base self) = None ->
       get_window_prices self day window
       = Ok (day, days cl 0 (Z.to_nat day), today_op)
       /\ Py.len (days cl 0 (Z.to_nat day)) = day
       /\ (day = 0%Z -> days cl 0 (Z.to_nat day) = [])) /\
    (forall train, (day < window)%Z -> data_train (base self) = Some train ->
       get_window_prices self day window
       = Ok (window,
             tail_rows (get_cl train) (Z.to_nat (window - day))
               ++ days cl 0 (Z.to_nat day),
             today_op)
       /\ (day = 0%Z -> days cl 0 (Z.to_nat day) = [])).
Proof.
  intros [[Hlen _] _] Hday Hw.
  destruct (index_in_range _ _ Hday) as [today_op [Hidx Hnth]].
  exists today_op. split; [exact Hnth|]. cbv zeta.
  assert (Hcl : (day <= Py.len (get_cl (data (base self))))%Z)
    by (unfold Py.len in *; lia).
  unfold get_window_prices. rewrite Hidx. cbn [bind].
  split; [|split].
  - intros Hge.
    assert (E : (window <=? day)%Z = true) by (apply Z.leb_le; lia).
    assert (E' : (day <? window)%Z = false) by (apply Z.ltb_ge; lia).
    rewrite E, E'. rewrite slice_days by lia.
    split.
    + destruct (data_train (base self)); reflexivity.
    + unfold Py.len in *. rewrite days_length by lia. lia.
  - intros Hlt Hnone. rewrite Hnone.
    assert (E' : (day <? window)%Z = true) by (apply Z.ltb_lt; lia).
    rewrite E'. rewrite Z.sub_diag. rewrite slice_days by lia.
    split; [reflexivity|]. split.
    + unfold Py.len in *. rewrite days_length by lia. lia.
    + intros ->. reflexivity.
  - intros train Hlt Hsome. rewrite Hsome.
    assert (E : (window <=? day)%Z = false) by (apply Z.leb_gt; lia).
    rewrite E. rewrite slice_from_tail by lia.
    replace (- (day - window))%Z with (window - day)%Z by lia.
    split.
    + destruct (day =? 0)%Z eqn:E0.
      * apply Z.eqb_eq in E0. subst day. cbn. rewrite app_nil_r. reflexivity.
      * rewrite slice_days by lia. reflexivity.
    + intros ->. reflexivity.
Qed.

(** ** Price-relative predictor *)

Lemma Forall_skipn {A : Type} (P : A -> Prop) (k : nat) (l : list A) :
  Forall P l -> Forall P (skipn k l).
Proof.
  intros H. rewrite <- (firstn_skipn k l) in H.
  apply Forall_app in H. tauto.
Qed.

Lemma Forall_firstn {A : Type} (P : A -> Prop) (k : nat) (l : list A) :
  Forall P l -> Forall P (firstn k l).
Proof.
  intros H. rewrite <- (firstn_skipn k l) in H.
  apply Forall_app in H. tauto.
Qed.

Lemma Forall_slice {A : Type} (P : A -> Prop) (l : list A) (a b : Z) :
  Forall P l -> Forall P (Py.slice l a b).
Proof.
  intros H. unfold Py.slice. apply Forall_firstn, Forall_skipn, H.
Qed.

Lemma Forall_slice_from {A : Type} (P : A -> Prop) (l : list A) (a : Z) :
  Forall P l -> Forall P (Py.slice_from l a).
Proof.
  intros H. unfold Py.slice_from. apply Forall_skipn, H.
Qed.

(** On a day of the live series the window extractor returns, whatever
    the window, rows over the whole asset universe. *)
Lemma get_window_prices_total (self : OLMAR) (day w : Z) :
  wf self ->
  (0 <= day < Py.len (get_op (data (base self))))%Z ->
  exists w' window_cl today_op,
    nth_error (get_op (data (base self))) (Z.to_nat day) = Some today_op /\
    Py.index (get_op (data (base self))) day = Ok today_op /\
    get_window_prices self day w = Ok (w', window_cl, today_op) /\
    Forall (fun row => List.length row = num_stocks (base self)) window_cl /\
    List.length today_op = num_stocks (base self).
Proof.
  intros [[Hlen [Hop Hcl]] [Htrain _]] Hday.
  destruct (index_in_range _ _ Hday) as [today_op [Hidx Hnth]].
  assert (Hrow : List.length today_op = num_stocks (base self)).
  { apply nth_error_In in Hnth. rewrite Forall_forall in Hop. auto. }
  unfold get_window_prices. rewrite Hidx. cbn [bind].
  destruct (data_train (base self)) as [train|].
  - destruct Htrain as [_ [_ Htcl]].
    destruct (w <=? day)%Z.
    + eexists _, _, today_op. repeat split; eauto using Forall_slice.
    + destruct (day =? 0)%Z.
      * eexists _, _, today_op.
        repeat split; eauto using Forall_slice_from.
      * eexists _, _, today_op. repeat split; eauto.
        apply Forall_app. split; auto using Forall_slice, Forall_slice_from.
  - eexists _, _, today_op. repeat split; eauto using Forall_slice.
Qed.

Lemma mean_axis0_nth (r : list Q) (m : list (list Q)) (j : nat) :
  (j < List.length r)%nat ->
  nth j (mean_axis0 (r :: m)) 0 = mean (column (r :: m) j).
Proof.
  intros Hj. unfold mean_axis0.
  rewrite (nth_indep _ 0 (mean (column (r :: m) 0)))
    by (rewrite length_map, length_seq; exact Hj).
  rewrite (map_nth (fun j => mean (column (r :: m) j))).
  rewrite seq_nth by exact Hj. reflexivity.
Qed.

Lemma mean_axis0_length (r : list Q) (m : list (list Q)) :
  List.length (mean_axis0 (r :: m)) = List.length r.
Proof.
  unfold mean_axis0. now rewrite length_map, length_seq.
Qed.

Lemma silent_divide_length (x y : list Q) :
  List.length x = List.length y ->
  List.length (Util.silent_divide x y) = List.length y.
Proof.
  intros H. unfold Util.silent_divide.
  rewrite length_map, length_combine. lia.
Qed.

Lemma silent_divide_nth (x y : list Q) (j : nat) :
  List.length x = List.length y ->
  nth j (Util.silent_divide x y) 0
  = if Util.available (nth j y 0) then nth j x 0 / nth j y 0 else 0.
Proof.
  intros Hlen. unfold Util.silent_divide.
  set (f := fun p : Q * Q =>
              if Util.available (snd p) then fst p / snd p else 0).
  destruct (Nat.lt_ge_cases j (List.length y)) as [Hj|Hj].
  - rewrite (nth_indep _ 0 (f (0, 0)))
      by (rewrite length_map, length_combine; lia).
    rewrite map_nth, combine_nth by exact Hlen. reflexivity.
  - rewrite nth_overflow by (rewrite length_map, length_combine; lia).
    rewrite (nth_overflow y) by exact Hj. reflexivity.
Qed.

Lemma predict_price_relatives_ok (self : OLMAR) (day : Z) :
  wf self ->
  (0 <= day < Py.len (get_op (data (base self))))%Z ->
  exists w window_cl today_op,
    Py.index (get_op (data (base self))) day = Ok today_op /\
    get_window_prices self day (window self) = Ok (w, window_cl, today_op) /\
    predict_price_relatives self day
    = Ok (Util.silent_divide (mean_axis0 (window_cl ++ [today_op])) today_op) /\
    List.length (mean_axis0 (window_cl ++ [today_op])) = num_stocks (base self) /\
    List.length today_op = num_stocks (base self) /\
    (forall j, (j < num_stocks (base self))%nat ->
       nth j (mean_axis0 (window_cl ++ [today_op])) 0
       = mean (column (window_cl ++ [today_op]) j)).
Proof.
  intros Hwf Hday.
  destruct (get_window_prices_total self day (window self) Hwf Hday)
    as (w & window_cl & today_op & _ & Hidx & Hgwp & Hrows & Hop).
  exists w, window_cl, today_op.
  split; [exact Hidx|]. split; [exact Hgwp|].
  unfold predict_price_relatives. rewrite Hgwp. cbn [bind].
  split; [reflexivity|].
  destruct window_cl as [|r m]; cbn [app].
  - rewrite mean_axis0_length. repeat split; auto.
    intros j Hj. apply mean_axis0_nth. lia.
  - apply Forall_inv in Hrows.
    rewrite mean_axis0_length. repeat split; auto.
    intros j Hj. apply mean_axis0_nth. lia.
Qed.

Lemma sum_app (u v : list Q) : sum (u ++ v) == sum u + sum v.
Proof.
  induction u as [|x u IH]; cbn [app].
  - unfold sum at 2. cbn [fold_right]. symmetry. apply Qplus_0_l.
  - unfold sum at 1 2. cbn [fold_right]. fold (sum (u ++ v)). fold (sum u).
    rewrite IH. apply Qplus_assoc.
Qed.

(** C8: on a day of the live series [predict_price_relatives] returns
    one value per asset: zero for an asset whose opening price is zero
    or unavailable, and otherwise the arithmetic mean of the asset's
    column in the close-price window extended by the row of the day's
    opening prices, divided by the asset's opening price; this mean is
    the sum of the window's closes and the opening price over the number
    of rows plus one. *)
Theorem predict_price_relatives_spec (self : OLMAR) (day : Z) :
  wf self ->
  (0 <= day < Py.len (get_op (data (base self))))%Z ->
  exists w window_cl today_op price_rel,
    get_window_prices self day (window self) = Ok (w, window_cl, today_op) /\
    predict_price_relatives self day = Ok price_rel /\
    List.length price_rel = num_stocks (base self) /\
    forall j, (j < num_stocks (base self))%nat ->
      let op_j := nth j today_op 0 in
      let avg_j := mean (column (window_cl ++ [today_op]) j) in
      nth j price_rel 0 = (if Util.available op_j then avg_j / op_j else 0) /\
      (op_j <= 0 -> nth j price_rel 0 = 0) /\
      avg_j == (sum (column window_cl j) + op_j)
               / (inject_Z (Py.len window_cl) + 1).
Proof.
  intros Hwf Hday.
  destruct (predict_price_relatives_ok self day Hwf Hday)
    as (w & window_cl & today_op & _ & Hgwp & Hp & Hlen & Hop & Hnth).
  exists w, window_cl, today_op.
  eexists. split; [exact Hgwp|]. split; [exact Hp|].
  split; [rewrite silent_divide_length; lia|].
  intros j Hj. cbv zeta.
  rewrite silent_divide_nth by lia. rewrite Hnth by exact Hj.
  split; [reflexivity|]. split.
  - intros Hle. unfold Util.available, Qlt_bool.
    apply Qle_bool_iff in Hle. rewrite Hle. reflexivity.
  - unfold mean, column. rewrite map_app. cbn [map].
    rewrite sum_app. cbn [sum fold_right].
    unfold Py.len. rewrite length_app, !length_map. cbn [List.length].
    rewrite Nat2Z.inj_add, inject_Z_plus. cbn [Z.of_nat].
    setoid_replace (nth j today_op 0 + 0) with (nth j today_op 0) by ring.
    reflexivity.
Qed.

(** ** Allocation projector: the update loop *)

Lemma setitem_length (v : list Q) (i : nat) (x : Q) :
  List.length (setitem v i x) = List.length v.
Proof.
  revert i. induction v as [|y v IH]; intros [|i]; cbn; auto.
Qed.

Lemma setitem_nth_same (v : list Q) (i : nat) (x d : Q) :
  (i < List.length v)%nat -> nth i (setitem v i x) d = x.
Proof.
  revert i. induction v as [|y v IH]; intros [|i] H; cbn in *; try lia; auto.
  apply IH. lia.
Qed.

Lemma setitem_nth_other (v : list Q) (i j : nat) (x d : Q) :
  i <> j -> nth j (setitem v i x) d = nth j v d.
Proof.
  revert i j. induction v as [|y v IH]; intros [|i] [|j] H; cbn; auto.
  congruence.
Qed.

Section FillLoop.

Variable cond : nat -> bool.
Variable val : nat -> Q.

Lemma fill_loop_length (k s : nat) (acc : list Q) :
  List.length (fold_left (fill_step cond val) (seq s k) acc) = List.length acc.
Proof.
  revert s acc. induction k as [|k IH]; intros s acc; cbn; auto.
  rewrite IH. unfold fill_step. destruct (cond s); auto using setitem_length.
Qed.

Lemma fill_loop_nth (k s : nat) (acc : list Q) (j : nat) :
  (s + k <= List.length acc)%nat ->
  nth j (fold_left (fill_step cond val) (seq s k) acc) 0
  = if (s <=? j)%nat && (j <? s + k)%nat && cond j
    then val j else nth j acc 0.
Proof.
  revert s acc. induction k as [|k IH]; intros s acc Hlen; cbn [seq fold_left].
  - replace ((s <=? j)%nat && (j <? s + 0)%nat) with false; auto.
    symmetry. apply andb_false_iff.
    destruct (Nat.leb_spec s j); auto. right. apply Nat.ltb_ge. lia.
  - rewrite IH.
    2:{ unfold fill_step. destruct (cond s); rewrite ?setitem_length; lia. }
    destruct (Nat.eq_dec j s) as [->|Hne].
    + replace (S s <=? s)%nat with false by (symmetry; apply Nat.leb_gt; lia).
      replace (s <=? s)%nat with true by (symmetry; apply Nat.leb_le; lia).
      replace (s <? s + S k)%nat with true by (symmetry; apply Nat.ltb_lt; lia).
      cbn [andb]. unfold fill_step. destruct (cond s); auto.
      apply setitem_nth_same. lia.
    + replace (nth j (fill_step cond val acc s) 0) with (nth j acc 0).
      2:{ unfold fill_step. destruct (cond s); auto.
          symmetry. apply setitem_nth_other. congruence. }
      replace (j <? S s + k)%nat with (j <? s + S k)%nat
        by (f_equal; lia).
      replace (S s <=? j)%nat with (s <=? j)%nat; auto.
      destruct (Nat.leb_spec s j), (Nat.leb_spec (S s) j); auto; lia.
Qed.

End FillLoop.

(** The loop of [get_new_allocation] is such a loop. *)
Lemma new_b_of_fill (self : OLMAR) (predicted : list Q) (m lam : Q) :
  new_b_of self predicted m lam
  = fold_left
      (fill_step (fun i => Qlt_bool 0 (nth i predicted 0))
                 (fun i => nth i (b (base self)) 0
                           + lam * (nth i predicted 0 - m)))
      (seq 0 (num_stocks (base self)))
      (zeros (num_stocks (base self))).
Proof. reflexivity. Qed.

Lemma new_b_of_length (self : OLMAR) (predicted : list Q) (m lam : Q) :
  List.length (new_b_of self predicted m lam) = num_stocks (base self).
Proof.
  rewrite new_b_of_fill.
  rewrite (fill_loop_length
             (fun i => Qlt_bool 0 (nth i predicted 0))
             (fun i => nth i (b (base self)) 0
                       + lam * (nth i predicted 0 - m))).
  apply repeat_length.
Qed.

Lemma new_b_of_nth (self : OLMAR) (predicted : list Q) (m lam : Q) (j : nat) :
  (j < num_stocks (base self))%nat ->
  nth j (new_b_of self predicted m lam) 0
  = if Qlt_bool 0 (nth j predicted 0)
    then nth j (b (base self)) 0 + lam * (nth j predicted 0 - m)
    else 0.
Proof.
  intros Hj. rewrite new_b_of_fill.
  rewrite (fill_loop_nth
             (fun i => Qlt_bool 0 (nth i predicted 0))
             (fun i => nth i (b (base self)) 0
                       + lam * (nth i predicted 0 - m)))
    by (unfold zeros; rewrite repeat_length; lia).
  replace (0 <=? j)%nat with true by reflexivity.
  replace (j <? 0 + num_stocks (base self))%nat with true
    by (symmetry; apply Nat.ltb_lt; lia).
  cbn [andb]. unfold zeros. rewrite nth_repeat. reflexivity.
Qed.

Lemma Qlt_bool_iff (x y : Q) : Qlt_bool x y = true <-> x < y.
Proof.
  unfold Qlt_bool. rewrite negb_true_iff.
  split.
  - intros H. apply Qnot_le_lt. intros Hle.
    apply Qle_bool_iff in Hle. congruence.
  - intros H. destruct (Qle_bool y x) eqn:E; auto.
    apply Qle_bool_iff in E. apply Qle_not_lt in E. contradiction.
Qed.

Lemma Qlt_bool_false_iff (x y : Q) : Qlt_bool x y = false <-> y <= x.
Proof.
  unfold Qlt_bool. rewrite negb_false_iff. apply Qle_bool_iff.
Qed.

(** Outside the initial uniform case, [get_new_allocation] is the
    normalization of the vector that the update loop fills. *)
Lemma get_new_allocation_update (self : OLMAR) (day : Z) (init : bool) :
  wf self ->
  (0 <= day < Py.len (get_op (data (base self))))%Z ->
  init && is_None (data_train (base self)) = false ->
  exists w window_cl today_op,
    get_window_prices self day (window self) = Ok (w, window_cl, today_op) /\
    Py.index (get_op (data (base self))) day = Ok today_op /\
    List.length today_op = num_stocks (base self) /\
    let predicted :=
      Util.silent_divide (mean_axis0 (window_cl ++ [today_op])) today_op in
    let mean_ppr := mean (ppr_avail_of predicted today_op) in
    let lam := lam_of self predicted today_op in
    let new_b := new_b_of self predicted mean_ppr lam in
    predict_price_relatives self day = Ok predicted /\
    (forall j, nth j predicted 0
               = if Util.available (nth j today_op 0)
                 then nth j (mean_axis0 (window_cl ++ [today_op])) 0
                      / nth j today_op 0
                 else 0) /\
    get_new_allocation self day init
    = Ok (map (Np.mul (Np.div 1 (norm1 new_b))) new_b).
Proof.
  intros Hwf Hday Hinit.
  destruct (predict_price_relatives_ok self day Hwf Hday)
    as (w & window_cl & today_op & Hidx & Hgwp & Hp & Hlen & Hop & _).
  exists w, window_cl, today_op.
  split; [exact Hgwp|]. split; [exact Hidx|]. split; [exact Hop|].
  cbv zeta. split; [exact Hp|]. split.
  - intros j. apply silent_divide_nth. lia.
  - unfold get_new_allocation. rewrite Hinit, Hp. cbn [bind].
    rewrite Hidx. reflexivity.
Qed.

(** C5: in the update step of [get_new_allocation] the unnormalized
    weight of an asset whose predicted price relative is strictly
    positive is its old weight plus lambda times the difference between
    its predicted relative and the mean predicted relative of the
    available assets; every other asset, one with a non-positive
    predicted relative or an unavailable one, gets the unnormalized
    weight zero, whatever its old weight. *)
Theorem new_allocation_update_spec (self : OLMAR) (day : Z) (init : bool) :
  wf self ->
  (0 <= day < Py.len (get_op (data (base self))))%Z ->
  init && is_None (data_train (base self)) = false ->
  exists predicted today_op,
    predict_price_relatives self day = Ok predicted /\
    Py.index (get_op (data (base self))) day = Ok today_op /\
    let mean_ppr := mean (ppr_avail_of predicted today_op) in
    let lam := lam_of self predicted today_op in
    let new_b := new_b_of self predicted mean_ppr lam in
    get_new_allocation self day init
    = Ok (map (Np.mul (Np.div 1 (norm1 new_b))) new_b) /\
    List.length new_b = num_stocks (base self) /\
    forall j, (j < num_stocks (base self))%nat ->
      (0 < nth j predicted 0 ->
         nth j new_b 0
         = nth j (b (base self)) 0 + lam * (nth j predicted 0 - mean_ppr)) /\
      (nth j predicted 0 <= 0 -> nth j new_b 0 = 0) /\
      (Util.available (nth j today_op 0) = false -> nth j new_b 0 = 0).
Proof.
  intros Hwf Hday Hinit.
  destruct (get_new_allocation_update self day init Hwf Hday Hinit)
    as (w & window_cl & today_op & _ & Hidx & _ & Hp & Hnth & Hg).
  cbv zeta in Hp, Hnth, Hg.
  eexists _, today_op.
  split; [exact Hp|]. split; [exact Hidx|]. cbv zeta.
  split; [exact Hg|]. split; [apply new_b_of_length|].
  intros j Hj. rewrite new_b_of_nth by exact Hj.
  split; [|split].
  - intros Hpos. apply Qlt_bool_iff in Hpos. rewrite Hpos. reflexivity.
  - intros Hle. apply Qlt_bool_false_iff in Hle. rewrite Hle. reflexivity.
  - intros Hun. rewrite Hnth, Hun. reflexivity.
Qed.

(** ** Allocation projector: the step size *)

Lemma sum_cons (x : Q) (v : list Q) : sum (x :: v) = x + sum v.
Proof. reflexivity. Qed.

Lemma sum_nonneg (v : list Q) : Forall (fun x => 0 <= x) v -> 0 <= sum v.
Proof.
  induction 1 as [|x v Hx _ IH].
  - cbn. apply Qle_refl.
  - rewrite sum_cons. lra.
Qed.

Lemma square_nonneg (x : Q) : 0 <= x * x.
Proof.
  destruct (Qlt_le_dec x 0) as [H|H].
  - setoid_replace (x * x) with ((- x) * (- x)) by ring.
    apply Qmult_le_0_compat; lra.
  - apply Qmult_le_0_compat; assumption.
Qed.

Lemma norm2_sq_nonneg (v : list Q) : 0 <= norm2_sq v.
Proof.
  unfold norm2_sq. apply sum_nonneg.
  apply Forall_map, Forall_forall. intros x _. apply square_nonneg.
Qed.

Lemma norm2_sq_cons (x : Q) (v : list Q) :
  norm2_sq (x :: v) = x * x + norm2_sq v.
Proof. reflexivity. Qed.

Lemma norm2_sq_zero_iff (v : list Q) :
  norm2_sq v == 0 <-> Forall (fun x => x == 0) v.
Proof.
  induction v as [|x v IH].
  - split; [constructor | reflexivity].
  - rewrite norm2_sq_cons. split.
    + intros H.
      pose proof (square_nonneg x) as Hx.
      pose proof (norm2_sq_nonneg v) as Hv.
      assert (Hx0 : x * x == 0) by lra.
      assert (Hv0 : norm2_sq v == 0) by lra.
      constructor.
      * apply Qmult_integral in Hx0. tauto.
      * apply IH, Hv0.
    + intros H. inversion H as [|? ? Hx Hv]; subst.
      apply IH in Hv. rewrite Hx, Hv. ring.
Qed.

Lemma deviation_zero_iff (v : list Q) (m : Q) :
  Forall (fun x => x == 0) (sub v (scale m (ones (List.length v))))
  <-> Forall (fun p => p == m) v.
Proof.
  induction v as [|p v IH]; cbn.
  - split; constructor.
  - split; intros H; inversion H as [|? ? Hp Hv]; subst; constructor.
    + cbn in Hp. lra.
    + apply IH, Hv.
    + cbn. lra.
    + apply IH, Hv.
Qed.

Lemma sum_const (v : list Q) (x : Q) :
  Forall (fun p => p == x) v -> sum v == inject_Z (Py.len v) * x.
Proof.
  induction 1 as [|p v Hp _ IH].
  - cbn. ring.
  - rewrite sum_cons, IH. unfold Py.len. cbn [List.length].
    rewrite Nat2Z.inj_succ, <- Z.add_1_r, inject_Z_plus.
    change (p == x) in Hp. rewrite Hp. ring.
Qed.

Lemma all_equal_iff_mean (v : list Q) :
  all_equal v <-> Forall (fun p => p == mean v) v.
Proof.
  split.
  - intros H. destruct v as [|x v]; [constructor|].
    assert (Hx : Forall (fun p => p == x) (x :: v)).
    { apply Forall_forall. intros p Hp. apply H; [exact Hp | now left]. }
    assert (Hm : mean (x :: v) == x).
    { unfold mean. rewrite (sum_const _ _ Hx).
      field. unfold Py.len. cbn [List.length].
      rewrite Nat2Z.inj_succ. intros E.
      assert (E' : 0 < inject_Z (Z.succ (Z.of_nat (List.length v)))).
      { change 0 with (inject_Z 0). rewrite <- Zlt_Qlt. lia. }
      lra. }
    apply Forall_forall. intros p Hp. rewrite Hm.
    rewrite Forall_forall in Hx. apply Hx, Hp.
  - intros H x y Hx Hy. rewrite Forall_forall in H.
    rewrite (H x Hx), (H y Hy). reflexivity.
Qed.

(** The 2-norm distance between the available predicted relatives and
    their mean is zero exactly when they are all equal. *)
Lemma dispersion_zero_iff (v : list Q) :
  norm2_sq (sub v (scale (mean v) (ones (List.length v)))) == 0
  <-> all_equal v.
Proof.
  rewrite norm2_sq_zero_iff, deviation_zero_iff, all_equal_iff_mean.
  reflexivity.
Qed.

Lemma py_max0_spec (x : Q) :
  0 <= Py.max 0 x /\ (Py.max 0 x == 0 <-> x <= 0).
Proof.
  unfold Py.max. destruct (Qle_bool x 0) eqn:E.
  - apply Qle_bool_iff in E. split; [lra|]. split; [auto | reflexivity].
  - assert (H : 0 < x).
    { apply Qnot_le_lt. intros H. apply Qle_bool_iff in H. congruence. }
    split; [lra|]. split; intros; lra.
Qed.

Lemma py_min_cap_spec (y : Q) :
  0 <= y ->
  0 <= Py.min 100000 y /\ Py.min 100000 y <= 100000 /\
  (Py.min 100000 y == 0 <-> y == 0).
Proof.
  intros Hy. unfold Py.min. destruct (Qle_bool 100000 y) eqn:E.
  - apply Qle_bool_iff in E. split; [lra|]. split; [lra|].
    split; intros; lra.
  - assert (H : y < 100000).
    { apply Qnot_le_lt. intros H. apply Qle_bool_iff in H. congruence. }
    split; [lra|]. split; [lra|]. reflexivity.
Qed.

Lemma div_nonpos_iff (x l : Q) : 0 < l -> (x / l <= 0 <-> x <= 0).
Proof.
  intros Hl. split; intros H.
  - apply Qnot_lt_le. intros Hx.
    assert (0 < x / l) by (apply Qlt_shift_div_l; lra). lra.
  - apply Qle_shift_div_r; lra.
Qed.

(** C3, as the code has it: whatever value [mean_ppr] was computed for
    the mean of the available predicted relatives, the step size
    [min(100000, compute_lambda(ppr_avail, mean_ppr, avail_idxs))] lies
    between 0 and 100000; the 2-norm distance L between [ppr_avail] and
    the constant [mean_ppr] vector is 0 exactly when every available
    predicted relative equals [mean_ppr], and lambda is 0 then; lambda
    is 0 exactly when L is 0 or the allocation's predicted return
    already reaches epsilon, [eps <= dot(avail_b, ppr_avail)].  The
    step size of [get_new_allocation] is the one for the mean of
    [ppr_avail]. *)
Theorem step_size_spec (self : OLMAR) (ppr_avail : list Q) (mean_ppr : Q)
    (avail_idxs : list nat) :
  let avail_b := take (b (base self)) avail_idxs in
  let l2_norm_sq :=
    norm2_sq (sub ppr_avail
                (scale mean_ppr (ones (List.length ppr_avail)))) in
  let lam :=
    Py.min 100000 (compute_lambda self ppr_avail mean_ppr avail_idxs) in
  0 <= lam /\ lam <= 100000 /\
  (l2_norm_sq == 0 <-> Forall (fun p => p == mean_ppr) ppr_avail) /\
  (l2_norm_sq == 0 -> lam == 0) /\
  (lam == 0 <->
   l2_norm_sq == 0 \/ eps self <= dot avail_b ppr_avail) /\
  (forall predicted today_op,
     lam_of self predicted today_op
     = Py.min 100000
         (compute_lambda self (ppr_avail_of predicted today_op)
            (mean (ppr_avail_of predicted today_op))
            (Util.get_available_inds (Util.get_avail_stocks today_op)))).
Proof.
  cbv zeta.
  assert (Hdev :
            norm2_sq (sub ppr_avail
                        (scale mean_ppr (ones (List.length ppr_avail)))) == 0
            <-> Forall (fun p => p == mean_ppr) ppr_avail).
  { rewrite norm2_sq_zero_iff. apply deviation_zero_iff. }
  pose proof (norm2_sq_nonneg
                (sub ppr_avail
                   (scale mean_ppr (ones (List.length ppr_avail)))))
    as Hnn.
  unfold compute_lambda.
  set (l := norm2_sq _) in *.
  assert (Hlam_of : forall predicted today_op,
            lam_of self predicted today_op
            = Py.min 100000
                (compute_lambda self (ppr_avail_of predicted today_op)
                   (mean (ppr_avail_of predicted today_op))
                   (Util.get_available_inds
                      (Util.get_avail_stocks today_op))))
    by reflexivity.
  destruct (Qeq_bool l 0) eqn:E.
  - apply Qeq_bool_iff in E.
    destruct (py_min_cap_spec 0 (Qle_refl 0)) as (H0 & H1 & H2).
    assert (Hz : Py.min 100000 0 == 0) by (apply H2; reflexivity).
    split; [exact H0|]. split; [exact H1|]. split; [exact Hdev|].
    split; [intros _; exact Hz|]. split; [|exact Hlam_of].
    split; [intros _; left; exact E | intros _; exact Hz].
  - assert (Hl : 0 < l).
    { apply Qeq_bool_neq in E. destruct (Qlt_le_dec 0 l) as [H|H]; auto.
      exfalso. apply E. lra. }
    set (x := (eps self - dot (take (b (base self)) avail_idxs) ppr_avail) / l).
    destruct (py_max0_spec x) as (Hm0 & Hm1).
    destruct (py_min_cap_spec _ Hm0) as (H0 & H1 & H2).
    split; [exact H0|]. split; [exact H1|]. split; [exact Hdev|].
    split; [intros Hz; exfalso; lra|]. split; [|exact Hlam_of].
    rewrite H2, Hm1. unfold x. rewrite (div_nonpos_iff _ _ Hl).
    split.
    + intros H. right. lra.
    + intros [H|H]; [exfalso; lra | lra].
Qed.

(** C3 as stated fails: with the whole capital in an asset predicted to
    double, the predicted return 2 exceeds epsilon 1.1, so lambda is 0
    although the available predicted relatives 2 and 1 differ. *)
Lemma lam_zero_with_unequal_relatives :
  exists predicted today_op,
    predict_price_relatives olmar2 1 = Ok predicted /\
    Py.index (get_op (data (base olmar2))) 1 = Ok today_op /\
    ~ (lam_of olmar2 predicted today_op == 0
       <-> all_equal (ppr_avail_of predicted today_op)).
Proof.
  eexists. eexists.
  split; [vm_compute; reflexivity|].
  split; [vm_compute; reflexivity|].
  intros [H _].
  assert (H0 : lam_of olmar2 [(4 # 2) / 1; (2 # 2) / 1] [1; 1] == 0)
    by (vm_compute; reflexivity).
  specialize (H H0 ((4 # 2) / 1) ((2 # 2) / 1)).
  assert (Hc : (4 # 2) / 1 == (2 # 2) / 1).
  { apply H; vm_compute; auto. }
  vm_compute in Hc. discriminate Hc.
Qed.

(** ** Allocation projector: normalization *)

Lemma norm1_cons (x : Q) (v : list Q) : norm1 (x :: v) = Qabs x + norm1 v.
Proof. reflexivity. Qed.

Lemma norm1_nonneg (v : list Q) : 0 <= norm1 v.
Proof.
  unfold norm1. apply sum_nonneg.
  apply Forall_map, Forall_forall. intros x _. apply Qabs_nonneg.
Qed.

Lemma Qabs_zero (x : Q) : Qabs x == 0 -> x == 0.
Proof.
  intros H. pose proof (Qle_Qabs x) as H1.
  pose proof (Qle_Qabs (- x)) as H2. rewrite Qabs_opp in H2. lra.
Qed.

Lemma norm1_zero_iff (v : list Q) :
  norm1 v == 0 <-> Forall (fun x => x == 0) v.
Proof.
  induction v as [|x v IH].
  - split; [constructor | reflexivity].
  - rewrite norm1_cons. split.
    + intros H.
      pose proof (Qabs_nonneg x) as Hx.
      pose proof (norm1_nonneg v) as Hv.
      constructor.
      * apply Qabs_zero. lra.
      * apply IH. lra.
    + intros H. inversion H as [|? ? Hx Hv]; subst.
      apply IH in Hv. change (x == 0) in Hx. rewrite Hx, Hv. reflexivity.
Qed.

Lemma norm1_scale (a : Q) (v : list Q) :
  norm1 (map (Qmult a) v) == Qabs a * norm1 v.
Proof.
  induction v as [|x v IH]; cbn [map].
  - cbn. ring.
  - rewrite !norm1_cons, IH, Qabs_Qmult. ring.
Qed.

(** A vector whose 1-norm is not zero is scaled to 1-norm one. *)
Lemma normalize_finite (u : list Q) :
  ~ norm1 u == 0 ->
  map (Np.mul (Np.div 1 (norm1 u))) u
  = map Finite (map (Qmult (1 / norm1 u)) u)
  /\ norm1 (map (Qmult (1 / norm1 u)) u) == 1.
Proof.
  intros Hne. split.
  - unfold Np.div.
    destruct (Qeq_bool (norm1 u) 0) eqn:E;
      [apply Qeq_bool_iff in E; contradiction|].
    rewrite map_map. reflexivity.
  - rewrite norm1_scale.
    pose proof (norm1_nonneg u) as Hnn.
    assert (Hpos : 0 < 1 / norm1 u).
    { apply Qlt_shift_div_l; lra. }
    rewrite Qabs_pos by lra. field. exact Hne.
Qed.

(** A vector whose 1-norm is zero is divided all the same: the scalar
    [1.0 / sum_b] is infinite and every entry becomes nan. *)
Lemma normalize_degenerate (u : list Q) :
  norm1 u == 0 ->
  map (Np.mul (Np.div 1 (norm1 u))) u = repeat NaN (List.length u).
Proof.
  intros Hz. unfold Np.div.
  rewrite (Qeq_eq_bool _ _ Hz). cbn.
  apply norm1_zero_iff in Hz. clear - Hz.
  induction Hz as [|x v Hx _ IH]; cbn; [reflexivity|].
  rewrite (Qeq_eq_bool _ _ Hx), IH. reflexivity.
Qed.

(** Without an available asset no predicted relative is positive and
    the update loop leaves [new_b] at zero, whatever the mean is. *)
Lemma new_b_no_available (self : OLMAR) (avg today_op : list Q) (m lam : Q) :
  List.length avg = List.length today_op ->
  Forall (fun p => Util.available p = false) today_op ->
  new_b_of self (Util.silent_divide avg today_op) m lam
  = zeros (num_stocks (base self)).
Proof.
  intros Hlen Hun.
  apply (nth_ext _ _ 0 0).
  - rewrite new_b_of_length. unfold zeros. now rewrite repeat_length.
  - intros j Hj. rewrite new_b_of_length in Hj.
    rewrite new_b_of_nth by exact Hj.
    unfold zeros. rewrite nth_repeat.
    rewrite silent_divide_nth by exact Hlen.
    destruct (Nat.lt_ge_cases j (List.length today_op)) as [H|H].
    + rewrite Forall_forall in Hun. rewrite (Hun (nth j today_op 0)).
      * reflexivity.
      * apply nth_In, H.
    + rewrite (nth_overflow today_op) by exact H. reflexivity.
Qed.

(** ** Allocation projector: the initial uniform allocation *)

Lemma avail_stocks_nth (op : list Q) (j : nat) :
  nth j (Util.get_avail_stocks op) false = Util.available (nth j op 0).
Proof.
  unfold Util.get_avail_stocks.
  change false with (Util.available 0). apply map_nth.
Qed.

Lemma sum_indicator (f : nat -> bool) (k : Q) (l : list nat) :
  sum (map (fun i => if f i then 1 / k else 0) l)
  == inject_Z (Py.len (filter f l)) / k.
Proof.
  induction l as [|i l IH]; cbn [map filter].
  - cbn. unfold Qdiv. ring.
  - rewrite sum_cons, IH. destruct (f i).
    + unfold Py.len. cbn [List.length].
      rewrite Nat2Z.inj_succ, <- Z.add_1_r, inject_Z_plus.
      unfold Qdiv. change (inject_Z 1) with 1. ring.
    + unfold Qdiv. ring.
Qed.

Lemma norm1_of_nonneg (v : list Q) :
  Forall (fun x => 0 <= x) v -> norm1 v == sum v.
Proof.
  induction 1 as [|x v Hx _ IH].
  - reflexivity.
  - rewrite norm1_cons, sum_cons, IH, Qabs_pos by exact Hx. reflexivity.
Qed.

Lemma available_inds_nonempty (op : list Q) :
  existsb Util.available op = true ->
  (0 < Py.len (Util.get_available_inds (Util.get_avail_stocks op)))%Z.
Proof.
  intros H. apply existsb_exists in H. destruct H as [p [Hin Hp]].
  destruct (In_nth _ _ 0 Hin) as [j [Hj Hnth]].
  assert (Hmem : In j (Util.get_available_inds (Util.get_avail_stocks op))).
  { unfold Util.get_available_inds. apply filter_In. split.
    - apply in_seq. unfold Util.get_avail_stocks. rewrite length_map. lia.
    - rewrite avail_stocks_nth, Hnth. exact Hp. }
  unfold Py.len.
  destruct (Util.get_available_inds (Util.get_avail_stocks op));
    [contradiction | cbn; lia].
Qed.

(** The initial call without training data. *)
Lemma get_new_allocation_uniform (self : OLMAR) (day : Z) (today_op : list Q) :
  wf self ->
  data_train (base self) = None ->
  (0 <= day)%Z ->
  nth_error (get_op (data (base self))) (Z.to_nat day) = Some today_op ->
  let num_avail :=
    inject_Z (Py.len (Util.get_available_inds
                        (Util.get_avail_stocks today_op))) in
  exists v,
    get_new_allocation self day true = Ok (map Finite v) /\
    List.length v = num_stocks (base self) /\
    (forall j, (j < num_stocks (base self))%nat ->
       nth j v 0 = if Util.available (nth j today_op 0)
                   then 1 / num_avail else 0) /\
    (existsb Util.available today_op = true -> sum v == 1 /\ norm1 v == 1).
Proof.
  intros Hwf Hnone Hday0 Hnth num_avail.
  assert (Hday : (0 <= day < Py.len (get_op (data (base self))))%Z).
  { split; [exact Hday0|]. unfold Py.len.
    assert (Z.to_nat day < List.length (get_op (data (base self))))%nat
      by (apply nth_error_Some; congruence).
    lia. }
  destruct (index_in_range _ _ Hday) as [op [Hidx Hnth']].
  assert (op = today_op) by congruence. subst op.
  destruct Hwf as [[_ [Hop _]] _].
  assert (Hrow : List.length today_op = num_stocks (base self)).
  { apply nth_error_In in Hnth. rewrite Forall_forall in Hop. auto. }
  set (mask := Util.get_avail_stocks today_op) in *.
  assert (Hcount :
            filter (fun i => nth i mask false)
                   (seq 0 (num_stocks (base self)))
            = Util.get_available_inds mask).
  { unfold Util.get_available_inds, mask, Util.get_avail_stocks.
    now rewrite length_map, Hrow. }
  set (w := fun i : nat => if nth i mask false then 1 / num_avail else 0).
  exists (map w (seq 0 (num_stocks (base self)))).
  split; [|split; [|split]].
  - unfold get_new_allocation. rewrite Hnone. cbn [is_None andb].
    rewrite Hidx. reflexivity.
  - now rewrite length_map, length_seq.
  - intros j Hj.
    rewrite (nth_indep _ 0 (w 0%nat)) by (rewrite length_map, length_seq; lia).
    rewrite map_nth, seq_nth by lia. cbn [Nat.add]. unfold w, mask.
    rewrite avail_stocks_nth. reflexivity.
  - intros Hsome.
    pose proof (available_inds_nonempty today_op Hsome) as Hk.
    assert (Hkpos : 0 < num_avail).
    { unfold num_avail. change 0 with (inject_Z 0).
      rewrite <- Zlt_Qlt. exact Hk. }
    assert (Hne : ~ num_avail == 0).
    { intros E. apply (Qlt_not_eq _ _ Hkpos). symmetry. exact E. }
    assert (Hsum : sum (map w (seq 0 (num_stocks (base self)))) == 1).
    { unfold w. rewrite sum_indicator, Hcount. fold num_avail.
      apply Qmult_inv_r, Hne. }
    split; [exact Hsum|].
    rewrite norm1_of_nonneg; [exact Hsum|].
    apply Forall_map, Forall_forall. intros i _. unfold w.
    destruct (nth i mask false).
    + apply Qle_shift_div_l; [exact Hkpos|].
      rewrite Qmult_0_l. discriminate.
    + apply Qle_refl.
Qed.

(** C9: with [init=True] and no training data, on a day of the live
    series, [get_new_allocation] returns one finite weight per asset:
    zero for every unavailable asset and one over the number of
    available assets for every available one; when some asset is
    available the weights sum to 1. *)
Theorem uniform_initial_allocation (self : OLMAR) (day : Z) (today_op : list Q) :
  wf self ->
  data_train (base self) = None ->
  (0 <= day)%Z ->
  nth_error (get_op (data (base self))) (Z.to_nat day) = Some today_op ->
  let num_avail :=
    inject_Z (Py.len (Util.get_available_inds
                        (Util.get_avail_stocks today_op))) in
  exists v,
    get_new_allocation self day true = Ok (map Finite v) /\
    List.length v = num_stocks (base self) /\
    (forall j, (j < num_stocks (base self))%nat ->
       nth j v 0 = if Util.available (nth j today_op 0)
                   then 1 / num_avail else 0) /\
    (existsb Util.available today_op = true -> sum v == 1 /\ norm1 v == 1).
Proof.
  intros Hwf Hnone Hday0 Hnth.
  exact (get_new_allocation_uniform self day today_op Hwf Hnone Hday0 Hnth).
Qed.


(** C1 at the failing input: on a day on which no asset is quoted the
    unnormalized vector is zero, the code divides by its zero 1-norm
    and every returned weight is nan; the returned vector is not a
    vector of finite weights of 1-norm 1. *)
Lemma allocation_nan_without_quotes :
  wf olmar_closed /\
  get_new_allocation olmar_closed 1 false = Ok [NaN; NaN; NaN] /\
  ~ exists v, get_new_allocation olmar_closed 1 false = Ok (map Finite v)
              /\ norm1 v == 1.
Proof.
  assert (Hg : get_new_allocation olmar_closed 1 false = Ok [NaN; NaN; NaN])
    by (vm_compute; reflexivity).
  split; [|split; [exact Hg|]].
  - unfold wf, wf_market. cbn. repeat split; auto.
  - intros [v [Hv _]]. rewrite Hg in Hv.
    destruct v as [|x v]; discriminate Hv.
Qed.

(** C2, what the code does: when the unnormalized vector [new_b] has
    1-norm zero, as on a day without any available asset,
    [get_new_allocation] raises nothing; it divides by the zero norm
    and returns nan for every asset. *)
Theorem zero_norm_divided_silently (self : OLMAR) (day : Z) (init : bool) :
  wf self ->
  (0 <= day < Py.len (get_op (data (base self))))%Z ->
  init && is_None (data_train (base self)) = false ->
  exists predicted today_op,
    predict_price_relatives self day = Ok predicted /\
    Py.index (get_op (data (base self))) day = Ok today_op /\
    let new_b :=
      new_b_of self predicted
        (mean (ppr_avail_of predicted today_op))
        (lam_of self predicted today_op) in
    (Forall (fun p => Util.available p = false) today_op ->
     norm1 new_b == 0) /\
    (norm1 new_b == 0 ->
     get_new_allocation self day init
     = Ok (repeat NaN (num_stocks (base self)))).
Proof.
  intros Hwf Hday Hinit.
  destruct (predict_price_relatives_ok self day Hwf Hday)
    as (w & window_cl & today_op & _ & Hgwp & _ & Hlen & Hop & _).
  destruct (get_new_allocation_update self day init Hwf Hday Hinit)
    as (w' & window_cl' & op & Hgwp' & Hidx & _ & Hp & _ & Hg).
  assert (E : (w', window_cl', op) = (w, window_cl, today_op)) by congruence.
  inversion E; subst. clear E Hgwp'.
  cbv zeta in Hp, Hg. eexists _, today_op.
  split; [exact Hp|]. split; [exact Hidx|]. cbv zeta. split.
  - intros Hun. rewrite new_b_no_available by (auto; lia).
    apply norm1_zero_iff. unfold zeros.
    apply Forall_forall. intros x Hx. apply repeat_spec in Hx.
    subst x. reflexivity.
  - intros Hz. rewrite Hg, (normalize_degenerate _ Hz).
    now rewrite new_b_of_length.
Qed.

(** ** Constructor *)

Section Constructor.

Variable Portfolio_init :
  MarketData -> option MarketData -> Z -> option Z -> option (list Q) ->
  Portfolio.
Variable load_hyperparams : string -> list string -> list (string * Q).


(** C7: constructing with [eps <= 1] or [window < 1] raises an
    exception, whatever the other arguments are, stored results
    included; no instance is returned. *)
Theorem OLMAR_init_rejects (m : MarketData) (train : option MarketData)
    (start : Z) (stop : option Z) (w : Z) (e : Q)
    (wr : list Z) (er : list Q) (init_b : option (list Q))
    (past_results_dir : option string) :
  e <= 1 \/ (w < 1)%Z ->
  (exists msg,
     OLMAR_init Portfolio_init load_hyperparams m train start stop w e
       wr er init_b past_results_dir
     = Raise (Exception msg)) /\
  (forall o,
     OLMAR_init Portfolio_init load_hyperparams m train start stop w e
       wr er init_b past_results_dir
     <> Ok o).
Proof.
  intros H. unfold OLMAR_init.
  destruct (Qle_bool e 1) eqn:E.
  - split; [eexists; reflexivity | discriminate].
  - destruct (w <? 1)%Z eqn:E'.
    + split; [eexists; reflexivity | discriminate].
    + exfalso. destruct H as [H|H].
      * apply Qle_bool_iff in H. congruence.
      * apply Z.ltb_ge in E'. lia.
Qed.

(** C10: with [past_results_dir] given and valid arguments, the
    constructor succeeds and the instance holds the stored window,
    truncated to an integer, and the stored epsilon, whatever their
    values: the stored values are not validated. *)
Theorem OLMAR_init_stored_unchecked (m : MarketData)
    (train : option MarketData) (start : Z) (stop : option Z)
    (w : Z) (e : Q) (wr : list Z) (er : list Q)
    (init_b : option (list Q)) (dir : string) (sw se : Q) :
  1 < e -> (1 <= w)%Z ->
  Py.getitem (load_hyperparams dir ["Window"; "Epsilon"]) "Window" = Ok sw ->
  Py.getitem (load_hyperparams dir ["Window"; "Epsilon"]) "Epsilon" = Ok se ->
  exists o,
    OLMAR_init Portfolio_init load_hyperparams m train start stop w e
      wr er init_b (Some dir) = Ok o /\
    window o = Py.int sw /\ eps o = se /\
    window_hist o = [Py.int sw] /\ eps_hist o = [se].
Proof.
  intros He Hw Hsw Hse. unfold OLMAR_init.
  destruct (Qle_bool e 1) eqn:E; [apply Qle_bool_iff in E; lra|].
  destruct (w <? 1)%Z eqn:E'; [apply Z.ltb_lt in E'; lia|].
  rewrite Hsw. cbn [bind]. rewrite Hse. cbn [bind].
  eexists. split; [reflexivity|]. cbn. auto.
Qed.

End Constructor.

(** Stored results with window 0 and epsilon 1/2 give an instance that
    the validation of the arguments would have refused. *)
Lemma OLMAR_init_stored_unchecked_witness :
  1 < 13 # 10 /\ (1 <= 10)%Z /\
  exists o,
    OLMAR_init base_init stored_results live3 None 0 None 10 (13 # 10)
      default_window_range default_eps_range None (Some "results") = Ok o /\
    (window o < 1)%Z /\ eps o <= 1.
Proof.
  split; [reflexivity|]. split; [lia|].
  destruct (OLMAR_init_stored_unchecked base_init stored_results live3 None
              0 None 10 (13 # 10) default_window_range default_eps_range
              None "results" 0 (1 # 2))
    as (o & Ho & Hw & He & _).
  - reflexivity.
  - lia.
  - reflexivity.
  - reflexivity.
  - exists o. split; [exact Ho|]. rewrite Hw, He.
    split; [reflexivity | discriminate].
Defined.

Lemma OLMAR_init_rejects_witness :
  (13 # 10 <= 1 \/ (0 < 1)%Z) /\
  exists msg,
    OLMAR_init base_init stored_results live3 None 0 None 0 (13 # 10)
      default_window_range default_eps_range None None
    = Raise (Exception msg).
Proof.
  assert (H : 13 # 10 <= 1 \/ (0 < 1)%Z) by (right; lia).
  split; [exact H|].
  exact (proj1 (OLMAR_init_rejects base_init stored_results live3 None 0 None
                  0 (13 # 10) default_window_range default_eps_range
                  None None H)).
Defined.

(** ** Hyperparameter tuner *)






Lemma in_product {A B : Type} (xs : list A) (ys : list B) (x : A) (y : B) :
  In (x, y) (Py.product xs ys) <-> In x xs /\ In y ys.
Proof.
  unfold Py.product. rewrite in_flat_map. split.
  - intros (x' & Hx & Hin). apply in_map_iff in Hin.
    destruct Hin as (y' & E & Hy). inversion E; subst. auto.
  - intros [Hx Hy]. exists x. split; [exact Hx|].
    apply in_map_iff. exists y. auto.
Qed.

Section Tuner.

Variable Portfolio_init :
  MarketData -> option MarketData -> Z -> option Z -> option (list Q) ->
  Portfolio.
Variable load_hyperparams : string -> list string -> list (string * Q).
Variable run_sharpe : OLMAR -> Z -> Z -> Q.

(** Up to day 10 the tuner returns the instance as it is. *)
Lemma tune_early (self : OLMAR) (cur_day : Z) :
  (cur_day <= 10)%Z ->
  tune_hyperparams Portfolio_init load_hyperparams run_sharpe self cur_day = Ok self.
Proof.
  intros H. unfold tune_hyperparams.
  destruct (10 <? cur_day)%Z eqn:E; [apply Z.ltb_lt in E; lia|].
  reflexivity.
Qed.





End Tuner.


(** ** The theorems at the example instances *)

Lemma wf_olmar3 : wf olmar3.
Proof. wf_example. Qed.

Lemma wf_olmar_closed : wf olmar_closed.
Proof. wf_example. Qed.

Lemma wf_olmar_partial : wf olmar_partial.
Proof. wf_example. Qed.


Lemma get_window_prices_spec_witness :
  (0 <= 0 < Py.len (get_op (data (base olmar3))))%Z /\ (0 <= 1)%Z /\
  get_window_prices olmar3 0 1 = Ok (1%Z, [[10; 20; 30]], [10; 20; 30]).
Proof.
  assert (Hday : (0 <= 0 < Py.len (get_op (data (base olmar3))))%Z)
    by (cbn; lia).
  assert (Hw : (0 <= 1)%Z) by lia.
  split; [exact Hday|]. split; [exact Hw|].
  destruct (get_window_prices_spec olmar3 0 1 wf_olmar3 Hday Hw)
    as (today_op & Hnth & _ & _ & Htrain).
  cbn in Hnth. injection Hnth as <-.
  destruct (Htrain train3) as [Hg _]; [lia | reflexivity |].
  exact Hg.
Defined.

Lemma predict_price_relatives_spec_witness :
  (0 <= 1 < Py.len (get_op (data (base olmar3))))%Z /\
  exists price_rel,
    predict_price_relatives olmar3 1 = Ok price_rel /\
    nth 0 price_rel 0 == 23 # 24.
Proof.
  assert (Hday : (0 <= 1 < Py.len (get_op (data (base olmar3))))%Z)
    by (cbn; lia).
  split; [exact Hday|].
  destruct (predict_price_relatives_spec olmar3 1 wf_olmar3 Hday)
    as (w & window_cl & today_op & price_rel & Hgwp & Hp & _ & Hj).
  vm_compute in Hgwp. injection Hgwp as _ <- <-.
  exists price_rel. split; [exact Hp|].
  destruct (Hj 0%nat) as [H0 _]; [cbn; lia|].
  rewrite H0. vm_compute. reflexivity.
Defined.

Lemma new_allocation_update_spec_witness :
  (0 <= 1 < Py.len (get_op (data (base olmar3))))%Z /\
  exists new_b,
    List.length new_b = 3%nat /\
    get_new_allocation olmar3 1 false
    = Ok (map (Np.mul (Np.div 1 (norm1 new_b))) new_b).
Proof.
  assert (Hday : (0 <= 1 < Py.len (get_op (data (base olmar3))))%Z)
    by (cbn; lia).
  split; [exact Hday|].
  destruct (new_allocation_update_spec olmar3 1 false wf_olmar3 Hday eq_refl)
    as (predicted & today_op & _ & _ & Hg & Hlen & _).
  eexists. split; [exact Hlen | exact Hg].
Defined.


Lemma zero_norm_divided_silently_witness :
  (0 <= 1 < Py.len (get_op (data (base olmar_closed))))%Z /\
  get_new_allocation olmar_closed 1 false = Ok [NaN; NaN; NaN].
Proof.
  assert (Hday : (0 <= 1 < Py.len (get_op (data (base olmar_closed))))%Z)
    by (cbn; lia).
  split; [exact Hday|].
  destruct (zero_norm_divided_silently olmar_closed 1 false
              wf_olmar_closed Hday eq_refl)
    as (predicted & today_op & _ & Hidx & Hzero & Hret).
  vm_compute in Hidx. injection Hidx as <-.
  apply Hret, Hzero. repeat constructor.
Defined.

Lemma uniform_initial_allocation_witness :
  (0 <= 0)%Z /\
  exists v,
    get_new_allocation olmar_partial 0 true = Ok (map Finite v) /\
    nth 0 v 0 == 1 # 2 /\ nth 1 v 0 == 0 /\ nth 2 v 0 == 1 # 2 /\
    sum v == 1.
Proof.
  split; [lia|].
  destruct (uniform_initial_allocation olmar_partial 0 [10; 0; 30]
              wf_olmar_partial eq_refl (Z.le_refl 0) eq_refl)
    as (v & Hg & _ & Hj & Hsum).
  exists v. split; [exact Hg|].
  split; [|split; [|split; [|apply Hsum; reflexivity]]].
  - rewrite (Hj 0%nat) by (cbn; lia). reflexivity.
  - rewrite (Hj 1%nat) by (cbn; lia). reflexivity.
  - rewrite (Hj 2%nat) by (cbn; lia). reflexivity.
Defined.

(** * Further properties of the code *)

(** ** Days outside the live series *)

Lemma index_out_of_range {A : Type} (l : list A) (i : Z) :
  (i < - Py.len l \/ Py.len l <= i)%Z -> Py.index l i = Raise IndexError.
Proof.
  intros H. unfold Py.index, Py.len in *.
  destruct (i <? 0)%Z eqn:E.
  - apply Z.ltb_lt in E.
    destruct (i + Z.of_nat (List.length l) <? 0)%Z eqn:E'; [reflexivity|].
    apply Z.ltb_ge in E'. lia.
  - rewrite E. apply Z.ltb_ge in E.
    destruct (nth_error l (Z.to_nat i)) eqn:N; [|reflexivity].
    assert (Z.to_nat i < List.length l)%nat
      by (apply nth_error_Some; congruence).
    lia.
Qed.

(** X1: a day index past the last live day, or below minus the number
    of live days, is not clamped: the window extractor raises
    [IndexError], and so do the predictor and both branches of
    [get_new_allocation]. *)
Theorem day_out_of_range_raises (self : OLMAR) (day w : Z) (init : bool) :
  (day < - Py.len (get_op (data (base self)))
   \/ Py.len (get_op (data (base self))) <= day)%Z ->
  get_window_prices self day w = Raise IndexError /\
  predict_price_relatives self day = Raise IndexError /\
  get_new_allocation self day init = Raise IndexError.
Proof.
  intros H. pose proof (index_out_of_range _ _ H) as Hidx.
  assert (Hg : forall w', get_window_prices self day w' = Raise IndexError).
  { intros w'. unfold get_window_prices. rewrite Hidx. reflexivity. }
  assert (Hp : predict_price_relatives self day = Raise IndexError).
  { unfold predict_price_relatives. rewrite Hg. reflexivity. }
  split; [apply Hg|]. split; [exact Hp|].
  unfold get_new_allocation.
  destruct (init && is_None (data_train (base self))).
  - rewrite Hidx. reflexivity.
  - rewrite Hp. reflexivity.
Qed.

Lemma day_out_of_range_raises_witness :
  (2 < - Py.len (get_op (data (base olmar3)))
   \/ Py.len (get_op (data (base olmar3))) <= 2)%Z /\
  get_new_allocation olmar3 2 false = Raise IndexError.
Proof.
  assert (H : (2 < - Py.len (get_op (data (base olmar3)))
               \/ Py.len (get_op (data (base olmar3))) <= 2)%Z)
    by (right; cbn; lia).
  split; [exact H|].
  exact (proj2 (proj2 (day_out_of_range_raises olmar3 2 1 false H))).
Defined.

(** ** The window across the training boundary *)

(** X2: with a training series and [day < window] the returned window
    is the requested one, but the close-price matrix has only
    [min(window - day, training days) + day] rows: when the training
    series is shorter than [window - day], fewer rows than the returned
    window says. *)
Theorem training_window_rows (self : OLMAR) (day w : Z) (train : MarketData) :
  wf self ->
  (0 <= day < Py.len (get_op (data (base self))))%Z ->
  (day < w)%Z ->
  data_train (base self) = Some train ->
  exists window_cl today_op,
    get_window_prices self day w = Ok (w, window_cl, today_op) /\
    Py.len window_cl = (Z.min (w - day) (Py.len (get_cl train)) + day)%Z /\
    ((Py.len (get_cl train) < w - day)%Z -> (Py.len window_cl < w)%Z).
Proof.
  intros [[Hlen _] _] Hday Hw Htrain.
  destruct (index_in_range _ _ Hday) as [today_op [Hidx _]].
  assert (Hcl : (day <= Py.len (get_cl (data (base self))))%Z)
    by (unfold Py.len in *; lia).
  assert (Hrows :
            Py.len (Py.slice_from (get_cl train) (day - w)
                      ++ Py.slice (get_cl (data (base self))) 0 day)
            = (Z.min (w - day) (Py.len (get_cl train)) + day)%Z).
  { rewrite slice_from_tail by lia. rewrite slice_days by lia.
    unfold Py.len in *. rewrite length_app, tail_rows_length.
    rewrite days_length by lia. lia. }
  unfold get_window_prices. rewrite Hidx, Htrain. cbn [bind].
  assert (E : (w <=? day)%Z = false) by (apply Z.leb_gt; lia).
  rewrite E.
  destruct (day =? 0)%Z eqn:E0.
  - apply Z.eqb_eq in E0. subst day.
    eexists _, today_op. split; [reflexivity|].
    assert (Hnil : Py.slice (get_cl (data (base self))) 0 0 = [])
      by (rewrite slice_days by lia; reflexivity).
    rewrite Hnil, app_nil_r in Hrows.
    split; [exact Hrows | lia].
  - eexists _, today_op. split; [reflexivity|].
    split; [exact Hrows | lia].
Qed.

Lemma training_window_rows_witness :
  (0 <= 0 < Py.len (get_op (data (base olmar3))))%Z /\ (0 < 5)%Z /\
  exists window_cl today_op,
    get_window_prices olmar3 0 5 = Ok (5%Z, window_cl, today_op) /\
    Py.len window_cl = 1%Z.
Proof.
  assert (Hday : (0 <= 0 < Py.len (get_op (data (base olmar3))))%Z)
    by (cbn; lia).
  assert (Hw : (0 < 5)%Z) by lia.
  split; [exact Hday|]. split; [exact Hw|].
  destruct (training_window_rows olmar3 0 5 train3 wf_olmar3 Hday Hw eq_refl)
    as (window_cl & today_op & Hg & Hrows & _).
  exists window_cl, today_op. split; [exact Hg | exact Hrows].
Defined.

(** ** Sign of the predicted relatives *)

Lemma get_window_prices_rows (P : list Q -> Prop) (self : OLMAR)
    (day w w' : Z) (window_cl : list (list Q)) (today_op : list Q) :
  Forall P (get_cl (data (base self))) ->
  match data_train (base self) with
  | Some t => Forall P (get_cl t)
  | None => True
  end ->
  get_window_prices self day w = Ok (w', window_cl, today_op) ->
  Forall P window_cl.
Proof.
  intros Hcl Htrain. unfold get_window_prices.
  destruct (Py.index (get_op (data (base self))) day); [|discriminate].
  cbn [bind].
  destruct (data_train (base self)) as [train|].
  - destruct (w <=? day)%Z.
    + intros H. injection H as _ <- _. apply Forall_slice, Hcl.
    + destruct (day =? 0)%Z; intros H; injection H as _ <- _.
      * apply Forall_slice_from, Htrain.
      * apply Forall_app. split.
        -- apply Forall_slice_from, Htrain.
        -- apply Forall_slice, Hcl.
  - intros H. injection H as _ <- _. apply Forall_slice, Hcl.
Qed.

Lemma mean_column_app (window_cl : list (list Q)) (today_op : list Q)
    (j : nat) :
  mean (column (window_cl ++ [today_op]) j)
  == (sum (column window_cl j) + nth j today_op 0)
     / (inject_Z (Py.len window_cl) + 1).
Proof.
  unfold mean, column. rewrite map_app. cbn [map].
  rewrite sum_app. cbn [sum fold_right].
  unfold Py.len. rewrite length_app, !length_map. cbn [List.length].
  rewrite Nat2Z.inj_add, inject_Z_plus. cbn [Z.of_nat].
  setoid_replace (nth j today_op 0 + 0) with (nth j today_op 0) by ring.
  reflexivity.
Qed.

Lemma column_sum_nonneg (m : list (list Q)) (j : nat) :
  Forall (Forall (fun p => 0 <= p)) m -> 0 <= sum (column m j).
Proof.
  intros H. apply sum_nonneg. unfold column.
  apply Forall_map. apply Forall_forall. intros row Hrow.
  rewrite Forall_forall in H. specialize (H row Hrow).
  destruct (Nat.lt_ge_cases j (List.length row)) as [Hj|Hj].
  - rewrite Forall_forall in H. apply H, nth_In, Hj.
  - rewrite nth_overflow by exact Hj. apply Qle_refl.
Qed.

Lemma rows_plus_one_pos {A : Type} (l : list A) :
  0 < inject_Z (Py.len l) + 1.
Proof.
  assert (H : 0 <= inject_Z (Py.len l)).
  { change 0 with (inject_Z 0). rewrite <- Zle_Qle. unfold Py.len. lia. }
  lra.
Qed.

(** With close prices that are not negative, the prediction for an
    available asset is at least one over the number of rows of the
    extended window; the prediction for any other asset is 0. *)
Lemma predicted_sign (self : OLMAR) (day : Z) :
  wf self -> nonneg_closes self ->
  (0 <= day < Py.len (get_op (data (base self))))%Z ->
  exists w window_cl today_op predicted,
    Py.index (get_op (data (base self))) day = Ok today_op /\
    get_window_prices self day (window self) = Ok (w, window_cl, today_op) /\
    predict_price_relatives self day = Ok predicted /\
    List.length today_op = num_stocks (base self) /\
    forall j, (j < num_stocks (base self))%nat ->
      (Util.available (nth j today_op 0) = true ->
       1 / (inject_Z (Py.len window_cl) + 1) <= nth j predicted 0) /\
      (Util.available (nth j today_op 0) = false -> nth j predicted 0 = 0) /\
      Qlt_bool 0 (nth j predicted 0) = Util.available (nth j today_op 0).
Proof.
  intros Hwf [Hnn Hnt] Hday.
  destruct (predict_price_relatives_ok self day Hwf Hday)
    as (w & window_cl & today_op & Hidx & Hgwp & Hp & Hlen & Hop & Hnth).
  exists w, window_cl, today_op. eexists.
  split; [exact Hidx|]. split; [exact Hgwp|]. split; [exact Hp|].
  split; [exact Hop|].
  pose proof (get_window_prices_rows _ self day _ _ _ _ Hnn Hnt Hgwp) as Hrows.
  intros j Hj.
  rewrite silent_divide_nth by lia. rewrite Hnth by exact Hj.
  pose proof (rows_plus_one_pos window_cl) as Hk.
  pose proof (column_sum_nonneg window_cl j Hrows) as HS.
  pose proof (mean_column_app window_cl today_op j) as Havg.
  set (k := inject_Z (Py.len window_cl) + 1) in *.
  set (o := nth j today_op 0) in *.
  set (avg := mean (column (window_cl ++ [today_op]) j)) in *.
  assert (Hbound : Util.available o = true -> 1 / k <= avg / o).
  { intros Ha. apply Qlt_bool_iff in Ha.
    apply Qle_shift_div_l; [exact Ha|].
    rewrite Havg. apply Qle_shift_div_l; [exact Hk|].
    setoid_replace (1 / k * o * k) with o by (field; lra). lra. }
  destruct (Util.available o) eqn:Ea.
  - split; [intros _; apply Hbound; reflexivity|].
    split; [discriminate|].
    apply Qlt_bool_iff.
    assert (0 < 1 / k) by (apply Qlt_shift_div_l; lra).
    specialize (Hbound eq_refl). lra.
  - split; [discriminate|]. split; reflexivity.
Qed.

(** X3: with close prices that are not negative, an asset's predicted
    relative is strictly positive exactly when the asset is available
    that day, and then it is at least one over the number of rows of the
    window extended by the opening prices; for any other asset it is
    0. *)
Theorem predicted_positive_iff_available (self : OLMAR) (day : Z) :
  wf self -> nonneg_closes self ->
  (0 <= day < Py.len (get_op (data (base self))))%Z ->
  exists w window_cl today_op predicted,
    get_window_prices self day (window self) = Ok (w, window_cl, today_op) /\
    predict_price_relatives self day = Ok predicted /\
    forall j, (j < num_stocks (base self))%nat ->
      (0 < nth j predicted 0 <-> Util.available (nth j today_op 0) = true) /\
      (Util.available (nth j today_op 0) = true ->
       1 / (inject_Z (Py.len window_cl) + 1) <= nth j predicted 0) /\
      (Util.available (nth j today_op 0) = false -> nth j predicted 0 = 0).
Proof.
  intros Hwf Hnn Hday.
  destruct (predicted_sign self day Hwf Hnn Hday)
    as (w & window_cl & today_op & predicted & _ & Hgwp & Hp & _ & Hj).
  exists w, window_cl, today_op, predicted.
  split; [exact Hgwp|]. split; [exact Hp|].
  intros j Hlt. destruct (Hj j Hlt) as (Hb & Hz & Hs).
  split; [|split; assumption].
  rewrite <- Hs. symmetry. apply Qlt_bool_iff.
Qed.

Lemma nonneg_olmar3 : nonneg_closes olmar3.
Proof.
  unfold nonneg_closes, nonneg_market. cbn.
  split; repeat constructor; discriminate.
Qed.

Lemma predicted_positive_iff_available_witness :
  (0 <= 1 < Py.len (get_op (data (base olmar3))))%Z /\
  exists predicted,
    predict_price_relatives olmar3 1 = Ok predicted /\
    1 # 2 <= nth 0 predicted 0.
Proof.
  assert (Hday : (0 <= 1 < Py.len (get_op (data (base olmar3))))%Z)
    by (cbn; lia).
  split; [exact Hday|].
  destruct (predicted_positive_iff_available olmar3 1 wf_olmar3
              nonneg_olmar3 Hday)
    as (w & window_cl & today_op & predicted & Hgwp & Hp & Hj).
  vm_compute in Hgwp. injection Hgwp as _ <- <-.
  exists predicted. split; [exact Hp|].
  destruct (Hj 0%nat) as (_ & Hb & _); [cbn; lia|].
  apply Hb. reflexivity.
Defined.

(** ** The first day without training data *)

Lemma clip_nonneg (n i : Z) : (0 <= n)%Z -> (0 <= Py.clip n i)%Z.
Proof.
  intros Hn. unfold Py.clip. destruct (i <? 0)%Z eqn:E.
  - lia.
  - apply Z.ltb_ge in E. lia.
Qed.

Lemma slice_stop_0 {A : Type} (l : list A) (a : Z) : Py.slice l a 0 = [].
Proof.
  unfold Py.slice.
  assert (Hn : (0 <= Py.len l)%Z) by (unfold Py.len; lia).
  pose proof (clip_nonneg (Py.len l) a Hn) as Ha.
  assert (Hb : Py.clip (Py.len l) 0 = 0%Z).
  { unfold Py.clip. cbn. lia. }
  rewrite Hb.
  replace (Z.to_nat (0 - Py.clip (Py.len l) a)) with 0%nat by lia.
  reflexivity.
Qed.

(** Equal available predicted relatives give the step size 0. *)
Lemma lam_zero_when_equal (self : OLMAR) (predicted today_op : list Q) :
  all_equal (ppr_avail_of predicted today_op) ->
  lam_of self predicted today_op = Py.min 100000 0.
Proof.
  intros Hall. apply dispersion_zero_iff in Hall.
  unfold lam_of, compute_lambda. fold (ppr_avail_of predicted today_op).
  rewrite (Qeq_eq_bool _ _ Hall). reflexivity.
Qed.

(** X4: on day 0 without training data the window is empty whatever its
    requested length, the predicted relative is 1 for every available
    asset and 0 for every other one, and the step size of the update is
    0. *)
Theorem first_day_prediction (self : OLMAR) (today_op : list Q) :
  wf self ->
  data_train (base self) = None ->
  nth_error (get_op (data (base self))) 0 = Some today_op ->
  exists w predicted,
    get_window_prices self 0 (window self) = Ok (w, [], today_op) /\
    predict_price_relatives self 0 = Ok predicted /\
    (forall j, (j < num_stocks (base self))%nat ->
       nth j predicted 0
       == if Util.available (nth j today_op 0) then 1 else 0) /\
    lam_of self predicted today_op == 0.
Proof.
  intros Hwf Hnone Hnth.
  assert (Hday : (0 <= 0 < Py.len (get_op (data (base self))))%Z).
  { split; [lia|]. unfold Py.len.
    assert (0 < List.length (get_op (data (base self))))%nat
      by (apply nth_error_Some; congruence).
    lia. }
  destruct (index_in_range _ _ Hday) as [op [Hidx Hnth']].
  change (Z.to_nat 0) with 0%nat in Hnth'.
  assert (op = today_op) by congruence. subst op.
  assert (Hgwp : get_window_prices self 0 (window self)
                 = Ok (if (0 <? window self)%Z then 0%Z else window self,
                       [], today_op)).
  { unfold get_window_prices. rewrite Hidx, Hnone. cbn [bind].
    rewrite slice_stop_0. reflexivity. }
  destruct Hwf as [[_ [Hop _]] _].
  assert (Hrow : List.length today_op = num_stocks (base self)).
  { apply nth_error_In in Hnth. rewrite Forall_forall in Hop. auto. }
  assert (Hval : forall j,
            nth j (Util.silent_divide (mean_axis0 [today_op]) today_op) 0
            == if Util.available (nth j today_op 0) then 1 else 0).
  { intros j. rewrite silent_divide_nth by apply mean_axis0_length.
    destruct (Util.available (nth j today_op 0)) eqn:Ea; [|reflexivity].
    apply Qlt_bool_iff in Ea.
    assert (Hj : (j < List.length today_op)%nat).
    { destruct (Nat.lt_ge_cases j (List.length today_op)); auto.
      rewrite nth_overflow in Ea by assumption. lra. }
    rewrite mean_axis0_nth by exact Hj.
    unfold mean, column. cbn. field. lra. }
  eexists _, _. split; [exact Hgwp|].
  split; [unfold predict_price_relatives; rewrite Hgwp; reflexivity|].
  split; [intros j _; apply Hval|].
  rewrite lam_zero_when_equal; [reflexivity|].
  intros x y Hx Hy. unfold ppr_avail_of, take in Hx, Hy.
  apply in_map_iff in Hx. destruct Hx as (i & <- & Hi).
  apply in_map_iff in Hy. destruct Hy as (i' & <- & Hi').
  unfold Util.get_available_inds in Hi, Hi'.
  apply filter_In in Hi. destruct Hi as [_ Hi].
  apply filter_In in Hi'. destruct Hi' as [_ Hi'].
  rewrite avail_stocks_nth in Hi, Hi'.
  rewrite (Hval i), (Hval i'), Hi, Hi'. reflexivity.
Qed.

Lemma first_day_prediction_witness :
  exists predicted,
    predict_price_relatives olmar_partial 0 = Ok predicted /\
    nth 0 predicted 0 == 1 /\ nth 1 predicted 0 == 0 /\
    lam_of olmar_partial predicted [10; 0; 30] == 0.
Proof.
  destruct (first_day_prediction olmar_partial [10; 0; 30]
              wf_olmar_partial eq_refl eq_refl)
    as (w & predicted & _ & Hp & Hj & Hlam).
  exists predicted. split; [exact Hp|].
  split; [|split; [|exact Hlam]].
  - rewrite (Hj 0%nat) by (cbn; lia). reflexivity.
  - rewrite (Hj 1%nat) by (cbn; lia). reflexivity.
Defined.

(** ** The step size reaches epsilon *)




Lemma mean_times_length (x : list Q) :
  x <> [] -> inject_Z (Py.len x) * mean x == sum x.
Proof.
  intros Hne. unfold mean. field.
  destruct x as [|p x]; [congruence|].
  unfold Py.len. cbn [List.length]. rewrite Nat2Z.inj_succ.
  intros E.
  assert (E' : 0 < inject_Z (Z.succ (Z.of_nat (List.length x)))).
  { change 0 with (inject_Z 0). rewrite <- Zlt_Qlt. lia. }
  lra.
Qed.



(** ** The passive case *)

Lemma norm1_ext (u v : list Q) :
  List.length u = List.length v ->
  (forall j, (j < List.length u)%nat -> nth j u 0 == nth j v 0) ->
  norm1 u == norm1 v.
Proof.
  revert v. induction u as [|x u IH]; intros [|y v] Hlen H;
    try discriminate.
  - reflexivity.
  - rewrite !norm1_cons.
    assert (Hx : x == y) by (apply (H 0%nat); cbn; lia).
    rewrite Hx, (IH v).
    + reflexivity.
    + cbn in Hlen. lia.
    + intros j Hj. apply (H (S j)). cbn. lia.
Qed.

Lemma masked_b_length (self : OLMAR) (predicted : list Q) :
  List.length (masked_b self predicted) = num_stocks (base self).
Proof.
  unfold masked_b. now rewrite length_map, length_seq.
Qed.

Lemma masked_b_nth (self : OLMAR) (predicted : list Q) (j : nat) :
  (j < num_stocks (base self))%nat ->
  nth j (masked_b self predicted) 0
  = if Qlt_bool 0 (nth j predicted 0) then nth j (b (base self)) 0 else 0.
Proof.
  intros Hj. unfold masked_b.
  set (f := fun i => if Qlt_bool 0 (nth i predicted 0)
                     then nth i (b (base self)) 0 else 0).
  rewrite (nth_indep _ 0 (f 0%nat)) by (rewrite length_map, length_seq; lia).
  rewrite map_nth, seq_nth by lia. reflexivity.
Qed.

Lemma scaled_nth (a : Q) (u : list Q) (j : nat) :
  nth j (map (Qmult a) u) 0 == a * nth j u 0.
Proof.
  destruct (Nat.lt_ge_cases j (List.length u)) as [Hj|Hj].
  - rewrite (nth_indep _ 0 (a * 0)) by (rewrite length_map; exact Hj).
    rewrite map_nth. reflexivity.
  - rewrite !nth_overflow by (rewrite ?length_map; exact Hj). ring.
Qed.

(** X7: when the step size is 0 (equal predicted relatives, or a
    predicted return that already reaches epsilon) the update keeps the
    current allocation: every asset with a positive predicted relative
    keeps its weight, every other asset gets 0, and the result is this
    vector divided by its 1-norm. *)
Theorem passive_allocation_kept (self : OLMAR) (day : Z) (init : bool) :
  wf self ->
  (0 <= day < Py.len (get_op (data (base self))))%Z ->
  init && is_None (data_train (base self)) = false ->
  exists predicted today_op,
    predict_price_relatives self day = Ok predicted /\
    Py.index (get_op (data (base self))) day = Ok today_op /\
    (lam_of self predicted today_op == 0 ->
     ~ norm1 (masked_b self predicted) == 0 ->
     exists v,
       get_new_allocation self day init = Ok (map Finite v) /\
       List.length v = num_stocks (base self) /\
       forall j, (j < num_stocks (base self))%nat ->
         nth j v 0
         == nth j (masked_b self predicted) 0
            / norm1 (masked_b self predicted)).
Proof.
  intros Hwf Hday Hinit.
  destruct (get_new_allocation_update self day init Hwf Hday Hinit)
    as (w & window_cl & today_op & _ & Hidx & _ & Hp & _ & Hg).
  cbv zeta in Hp, Hg. eexists _, today_op.
  split; [exact Hp|]. split; [exact Hidx|].
  intros Hlam Hne.
  match type of Hg with
  | context [Np.div 1 (norm1 ?u)] => set (new_b := u) in *
  end.
  match type of Hp with
  | _ = Ok ?p => set (predicted := p) in *
  end.
  assert (Hpt : forall j, (j < List.length new_b)%nat ->
                          nth j new_b 0 == nth j (masked_b self predicted) 0).
  { intros j Hj. unfold new_b in Hj. rewrite new_b_of_length in Hj.
    unfold new_b. rewrite new_b_of_nth, masked_b_nth by exact Hj.
    destruct (Qlt_bool 0 (nth j predicted 0)); [|reflexivity].
    rewrite Hlam. ring. }
  assert (Hnorm : norm1 new_b == norm1 (masked_b self predicted)).
  { apply norm1_ext; [|exact Hpt].
    unfold new_b. now rewrite new_b_of_length, masked_b_length. }
  assert (Hne' : ~ norm1 new_b == 0) by (rewrite Hnorm; exact Hne).
  destruct (normalize_finite _ Hne') as [Hmap _].
  eexists. split; [rewrite Hg; f_equal; exact Hmap|].
  split; [rewrite length_map; apply new_b_of_length|].
  intros j Hj. rewrite scaled_nth.
  rewrite Hpt by (unfold new_b; rewrite new_b_of_length; exact Hj).
  rewrite Hnorm. field. exact Hne.
Qed.

Lemma passive_allocation_kept_witness :
  (0 <= 1 < Py.len (get_op (data (base olmar2))))%Z /\
  exists v,
    get_new_allocation olmar2 1 false = Ok (map Finite v) /\
    nth 0 v 0 == 1 /\ nth 1 v 0 == 0.
Proof.
  assert (Hday : (0 <= 1 < Py.len (get_op (data (base olmar2))))%Z)
    by (cbn; lia).
  split; [exact Hday|].
  assert (Hwf : wf olmar2) by wf_example.
  destruct (passive_allocation_kept olmar2 1 false Hwf Hday eq_refl)
    as (predicted & today_op & Hp & Hidx & Hkeep).
  vm_compute in Hidx. injection Hidx as <-.
  vm_compute in Hp. injection Hp as <-.
  destruct Hkeep as (v & Hg & _ & Hj).
  - vm_compute. reflexivity.
  - intros Hz. vm_compute in Hz. discriminate Hz.
  - exists v. split; [exact Hg|]. split.
    + rewrite (Hj 0%nat) by (cbn; lia). vm_compute. reflexivity.
    + rewrite (Hj 1%nat) by (cbn; lia). vm_compute. reflexivity.
Defined.

(** ** Sums of weights *)

Lemma sum_if_filter (f : nat -> bool) (h : nat -> Q) (l : list nat) :
  sum (map (fun i => if f i then h i else 0) l) == sum (map h (filter f l)).
Proof.
  induction l as [|i l IH]; cbn [map filter].
  - reflexivity.
  - rewrite sum_cons, IH. destruct (f i).
    + cbn [map]. rewrite sum_cons. reflexivity.
    + ring.
Qed.

Lemma sum_moved (bv p : list Q) (lam m : Q) (idxs : list nat) :
  sum (map (fun i => nth i bv 0 + lam * (nth i p 0 - m)) idxs)
  == sum (take bv idxs)
     + lam * (sum (take p idxs) - inject_Z (Py.len idxs) * m).
Proof.
  induction idxs as [|i idxs IH].
  - cbn. ring.
  - cbn [map take]. fold (take bv idxs). fold (take p idxs).
    rewrite !sum_cons, IH. unfold Py.len. cbn [List.length].
    rewrite Nat2Z.inj_succ, <- Z.add_1_r, inject_Z_plus.
    change (inject_Z 1) with 1. ring.
Qed.

Lemma sum_ext_nth (u v : list Q) :
  List.length u = List.length v ->
  (forall j, (j < List.length u)%nat -> nth j u 0 == nth j v 0) ->
  sum u == sum v.
Proof.
  revert v. induction u as [|x u IH]; intros [|y v] Hlen H;
    try discriminate.
  - reflexivity.
  - rewrite !sum_cons.
    assert (Hx : x == y) by (apply (H 0%nat); cbn; lia).
    rewrite Hx, (IH v).
    + reflexivity.
    + cbn in Hlen. lia.
    + intros j Hj. apply (H (S j)). cbn. lia.
Qed.

(** X8: with close prices that are not negative, the update moves
    weight between the available assets only: the entries of the
    unnormalized vector [new_b] sum to the sum of the current weights
    of the available assets, whatever the step size is. *)
Theorem update_preserves_available_sum (self : OLMAR) (day : Z) (init : bool) :
  wf self -> nonneg_closes self ->
  (0 <= day < Py.len (get_op (data (base self))))%Z ->
  init && is_None (data_train (base self)) = false ->
  exists predicted today_op,
    predict_price_relatives self day = Ok predicted /\
    Py.index (get_op (data (base self))) day = Ok today_op /\
    let new_b :=
      new_b_of self predicted
        (mean (ppr_avail_of predicted today_op))
        (lam_of self predicted today_op) in
    let avail_idxs :=
      Util.get_available_inds (Util.get_avail_stocks today_op) in
    get_new_allocation self day init
    = Ok (map (Np.mul (Np.div 1 (norm1 new_b))) new_b) /\
    sum new_b == sum (take (b (base self)) avail_idxs).
Proof.
  intros Hwf Hnn Hday Hinit.
  destruct (predicted_sign self day Hwf Hnn Hday)
    as (w & window_cl & today_op & predicted & Hidx & Hgwp & Hp & Hop & Hj).
  destruct (get_new_allocation_update self day init Hwf Hday Hinit)
    as (w' & window_cl' & op & Hgwp' & _ & _ & Hp' & _ & Hg).
  assert (E : (w', window_cl', op) = (w, window_cl, today_op)) by congruence.
  inversion E; subst. clear E Hgwp'.
  cbv zeta in Hp', Hg.
  assert (Epred : Util.silent_divide (mean_axis0 (window_cl ++ [today_op]))
                    today_op = predicted) by congruence.
  rewrite Epred in Hg. clear Hp' Epred.
  exists predicted, today_op.
  split; [exact Hp|]. split; [exact Hidx|]. cbv zeta.
  split; [exact Hg|].
  set (idxs := Util.get_available_inds (Util.get_avail_stocks today_op)).
  set (m := mean (ppr_avail_of predicted today_op)).
  set (lam := lam_of self predicted today_op).
  set (g := fun i => nth i (b (base self)) 0 + lam * (nth i predicted 0 - m)).
  set (f := fun i => Util.available (nth i today_op 0)).
  assert (Hfilter : filter f (seq 0 (num_stocks (base self))) = idxs).
  { unfold idxs, Util.get_available_inds, Util.get_avail_stocks.
    rewrite length_map, Hop. apply filter_ext. intros i. unfold f.
    symmetry. apply avail_stocks_nth. }
  rewrite (sum_ext_nth _
             (map (fun i => if f i then g i else 0)
                  (seq 0 (num_stocks (base self))))).
  - rewrite sum_if_filter, Hfilter. unfold g. rewrite sum_moved.
    fold (ppr_avail_of predicted today_op) in idxs.
    assert (Hz : sum (take predicted idxs) - inject_Z (Py.len idxs) * m == 0).
    { destruct idxs as [|i0 rest] eqn:Ei.
      - cbn. ring.
      - assert (Hlen : Py.len (i0 :: rest)
                       = Py.len (ppr_avail_of predicted today_op)).
        { unfold ppr_avail_of, take, Py.len. rewrite length_map.
          fold idxs. now rewrite Ei. }
        assert (Htake : take predicted (i0 :: rest)
                        = ppr_avail_of predicted today_op).
        { unfold ppr_avail_of. fold idxs. now rewrite Ei. }
        rewrite Hlen, Htake. unfold m.
        rewrite mean_times_length; [ring|].
        rewrite <- Htake. discriminate. }
    rewrite Hz. ring.
  - now rewrite new_b_of_length, length_map, length_seq.
  - intros j Hlt. rewrite new_b_of_length in Hlt.
    rewrite new_b_of_nth by exact Hlt.
    destruct (Hj j Hlt) as (_ & _ & Hs). rewrite Hs.
    rewrite (nth_indep
               (map (fun i => if f i then g i else 0)
                    (seq 0 (num_stocks (base self))))
               0 ((fun i => if f i then g i else 0) 0%nat))
      by (rewrite length_map, length_seq; exact Hlt).
    rewrite (map_nth (fun i => if f i then g i else 0)).
    rewrite seq_nth by exact Hlt. reflexivity.
Qed.

Lemma update_preserves_available_sum_witness :
  (0 <= 1 < Py.len (get_op (data (base olmar3))))%Z /\
  exists new_b,
    get_new_allocation olmar3 1 false
    = Ok (map (Np.mul (Np.div 1 (norm1 new_b))) new_b) /\
    sum new_b == 1.
Proof.
  assert (Hday : (0 <= 1 < Py.len (get_op (data (base olmar3))))%Z)
    by (cbn; lia).
  split; [exact Hday|].
  destruct (update_preserves_available_sum olmar3 1 false wf_olmar3
              nonneg_olmar3 Hday eq_refl)
    as (predicted & today_op & _ & Hidx & Hg & Hsum).
  vm_compute in Hidx. injection Hidx as <-.
  eexists. split; [exact Hg|]. rewrite Hsum. reflexivity.
Defined.

Lemma sum_scale (a : Q) (v : list Q) : sum (map (Qmult a) v) == a * sum v.
Proof.
  induction v as [|x v IH]; cbn [map].
  - cbn. ring.
  - rewrite !sum_cons, IH. ring.
Qed.

Lemma sum_le_norm1 (v : list Q) : - norm1 v <= sum v /\ sum v <= norm1 v.
Proof.
  induction v as [|x v [IH1 IH2]].
  - cbn. split; discriminate.
  - rewrite sum_cons, norm1_cons.
    pose proof (Qle_Qabs x) as H1.
    pose proof (Qle_Qabs (- x)) as H2. rewrite Qabs_opp in H2.
    split; lra.
Qed.

(** X9: the update divides by the 1-norm, not by the sum: the returned
    weights sum to the sum of [new_b] over its 1-norm, a value between
    -1 and 1, which is 1 when no entry of [new_b] is negative. *)
Theorem returned_weights_sum (self : OLMAR) (day : Z) (init : bool) :
  wf self ->
  (0 <= day < Py.len (get_op (data (base self))))%Z ->
  init && is_None (data_train (base self)) = false ->
  exists predicted today_op,
    predict_price_relatives self day = Ok predicted /\
    Py.index (get_op (data (base self))) day = Ok today_op /\
    let new_b :=
      new_b_of self predicted
        (mean (ppr_avail_of predicted today_op))
        (lam_of self predicted today_op) in
    (~ norm1 new_b == 0 ->
     exists v,
       get_new_allocation self day init = Ok (map Finite v) /\
       sum v == sum new_b / norm1 new_b /\
       - (1) <= sum v /\ sum v <= 1 /\
       (Forall (fun x => 0 <= x) new_b -> sum v == 1)).
Proof.
  intros Hwf Hday Hinit.
  destruct (get_new_allocation_update self day init Hwf Hday Hinit)
    as (w & window_cl & today_op & _ & Hidx & _ & Hp & _ & Hg).
  cbv zeta in Hp, Hg. eexists _, today_op.
  split; [exact Hp|]. split; [exact Hidx|]. cbv zeta.
  match type of Hg with
  | context [Np.div 1 (norm1 ?u)] => set (new_b := u) in *
  end.
  intros Hne. destruct (normalize_finite _ Hne) as [Hmap _].
  pose proof (norm1_nonneg new_b) as Hnn.
  assert (Hpos : 0 < norm1 new_b) by lra.
  destruct (sum_le_norm1 new_b) as [Hlo Hhi].
  assert (Hsum : sum (map (Qmult (1 / norm1 new_b)) new_b)
                 == sum new_b / norm1 new_b).
  { rewrite sum_scale. field. exact Hne. }
  eexists. split; [rewrite Hg; f_equal; exact Hmap|].
  split; [exact Hsum|]. rewrite Hsum.
  split; [|split].
  - apply Qle_shift_div_l; [exact Hpos | lra].
  - apply Qle_shift_div_r; [exact Hpos | lra].
  - intros Hall. rewrite <- (norm1_of_nonneg _ Hall). field. exact Hne.
Qed.

Lemma returned_weights_sum_witness :
  (0 <= 1 < Py.len (get_op (data (base olmar3))))%Z /\
  exists v,
    get_new_allocation olmar3 1 false = Ok (map Finite v) /\
    - (1) <= sum v /\ sum v <= 1.
Proof.
  assert (Hday : (0 <= 1 < Py.len (get_op (data (base olmar3))))%Z)
    by (cbn; lia).
  split; [exact Hday|].
  destruct (returned_weights_sum olmar3 1 false wf_olmar3 Hday eq_refl)
    as (predicted & today_op & Hp & Hidx & Hsum).
  vm_compute in Hidx. injection Hidx as <-.
  vm_compute in Hp. injection Hp as <-.
  destruct Hsum as (v & Hg & _ & Hlo & Hhi & _).
  - intros Hz. vm_compute in Hz. discriminate Hz.
  - exists v. auto.
Defined.

(** ** Errors and invariants of the tuner *)

Lemma product_nil_r {A B : Type} (xs : list A) :
  Py.product xs (@nil B) = [].
Proof.
  unfold Py.product. induction xs as [|x xs IH]; cbn; auto.
Qed.

Lemma index_ok_in {A : Type} (l : list A) (i : Z) (a : A) :
  Py.index l i = Ok a -> In a l.
Proof.
  unfold Py.index.
  destruct ((if (i <? 0)%Z then (i + Py.len l)%Z else i) <? 0)%Z;
    [discriminate|].
  destruct (nth_error l _) eqn:E; [|discriminate].
  intros H. injection H as <-. eapply nth_error_In, E.
Qed.

Lemma mapM_ok_inv {A B : Type} (f : A -> result B) (l : list A)
    (r : list B) :
  mapM f l = Ok r -> forall a, In a l -> exists y, f a = Ok y.
Proof.
  revert r. induction l as [|x l IH]; intros r H a Hin; [contradiction|].
  cbn [mapM] in H. destruct (f x) as [y|] eqn:Ex; [|discriminate].
  cbn [bind] in H. destruct (mapM f l) as [ys|] eqn:El; [|discriminate].
  destruct Hin as [<-|Hin]; [eauto | eapply IH; eauto].
Qed.


Section TunerErrors.

Variable Portfolio_init :
  MarketData -> option MarketData -> Z -> option Z -> option (list Q) ->
  Portfolio.
Variable load_hyperparams : string -> list string -> list (string * Q).
Variable run_sharpe : OLMAR -> Z -> Z -> Q.

(** Without stored results the constructor returns an instance for
    valid arguments and raises an [Exception] for any other. *)
Lemma OLMAR_init_cases (m : MarketData) (train : option MarketData)
    (start : Z) (stop : option Z) (w : Z) (e : Q)
    (wr : list Z) (er : list Q) (init_b : option (list Q)) :
  (1 < e /\ (1 <= w)%Z /\
   exists o, OLMAR_init Portfolio_init load_hyperparams m train start stop
               w e wr er init_b None = Ok o) \/
  ((e <= 1 \/ (w < 1)%Z) /\
   exists msg, OLMAR_init Portfolio_init load_hyperparams m train start stop
                 w e wr er init_b None = Raise (Exception msg)).
Proof.
  unfold OLMAR_init. destruct (Qle_bool e 1) eqn:E.
  - right. apply Qle_bool_iff in E. split; [now left | eexists; reflexivity].
  - assert (He : 1 < e).
    { apply Qnot_le_lt. intros H. apply Qle_bool_iff in H. congruence. }
    destruct (w <? 1)%Z eqn:E'.
    + right. apply Z.ltb_lt in E'. split; [now right | eexists; reflexivity].
    + left. apply Z.ltb_ge in E'. repeat split; auto. eexists. reflexivity.
Qed.

(** X10: after day 10, a tuner whose window range or epsilon range is
    empty raises [ValueError] (the maximum of no score) and adopts
    nothing. *)
Theorem tune_empty_grid_raises (self : OLMAR) (cur_day : Z)
    (init_b : list Q) :
  (10 < cur_day)%Z ->
  Py.index (b_history (base self)) (cur_day - 10) = Ok init_b ->
  window_range self = [] \/ eps_range self = [] ->
  tune_hyperparams Portfolio_init load_hyperparams run_sharpe self cur_day
  = Raise ValueError.
Proof.
  intros Hlt Hidx Hempty. unfold tune_hyperparams.
  destruct (10 <? cur_day)%Z eqn:E; [|apply Z.ltb_ge in E; lia].
  rewrite Hidx. cbn [bind].
  assert (Hnil : Py.product (window_range self) (eps_range self) = []).
  { destruct Hempty as [-> | ->]; [reflexivity | apply product_nil_r]. }
  rewrite Hnil. reflexivity.
Qed.


(** X12: after day 10 a tuning step that returns has adopted a pair of
    the grid that passes the constructor's validation, made it the
    current window and epsilon, appended it to both histories, one
    entry each, and left the base state and the ranges as they were. *)
Theorem tune_result_invariants (self o : OLMAR) (cur_day : Z) :
  (10 < cur_day)%Z ->
  tune_hyperparams Portfolio_init load_hyperparams run_sharpe self cur_day
  = Ok o ->
  In (window o) (window_range self) /\ In (eps o) (eps_range self) /\
  (1 <= window o)%Z /\ 1 < eps o /\
  window_hist o = window_hist self ++ [window o] /\
  eps_hist o = eps_hist self ++ [eps o] /\
  base o = base self /\
  window_range o = window_range self /\ eps_range o = eps_range self.
Proof.
  intros Hlt. unfold tune_hyperparams.
  destruct (10 <? cur_day)%Z eqn:E; [|apply Z.ltb_ge in E; lia].
  destruct (Py.index (b_history (base self)) (cur_day - 10))
    as [init_b|]; [|discriminate].
  cbn [bind].
  match goal with
  | |- context [mapM ?f ?l] => destruct (mapM f l) as [scores|] eqn:Escores
  end; [|discriminate].
  cbn [bind].
  destruct (Py.max_list scores) as [m|]; [|discriminate]. cbn [bind].
  destruct (Py.index_of scores m) as [i|]; [|discriminate]. cbn [bind].
  destruct (Py.index (Py.product (window_range self) (eps_range self))
              (Z.of_nat i)) as [[bw be]|] eqn:Ebest; [|discriminate].
  cbn [bind]. intros H. injection H as <-. cbn.
  apply index_ok_in in Ebest.
  destruct (mapM_ok_inv _ _ _ Escores _ Ebest) as [y Hy].
  apply in_product in Ebest. destruct Ebest as [Hw He].
  destruct (OLMAR_init_cases (data (base self)) None (cur_day - 10)
              (Some cur_day) bw be default_window_range default_eps_range
              (Some init_b)) as [(He1 & Hw1 & _)|[_ [msg Hmsg]]].
  - repeat split; auto.
  - exfalso. cbv beta iota zeta in Hy. rewrite Hmsg in Hy. discriminate Hy.
Qed.

(** X13: the selection does not depend on the current window and
    epsilon: running the tuner again on its own result, for the same
    day, returns the same window and epsilon. *)
Theorem tune_twice_same_choice (self o : OLMAR) (cur_day : Z) :
  tune_hyperparams Portfolio_init load_hyperparams run_sharpe self cur_day
  = Ok o ->
  exists o',
    tune_hyperparams Portfolio_init load_hyperparams run_sharpe o cur_day
    = Ok o' /\
    window o' = window o /\ eps o' = eps o.
Proof.
  intros H. destruct (Z.le_gt_cases cur_day 10) as [Hle|Hgt].
  - rewrite (tune_early Portfolio_init load_hyperparams run_sharpe
               self cur_day Hle) in H.
    injection H as <-. exists self. split; [|split; reflexivity].
    apply tune_early, Hle.
  - revert H. unfold tune_hyperparams.
    destruct (10 <? cur_day)%Z eqn:E; [|apply Z.ltb_ge in E; lia].
    destruct (Py.index (b_history (base self)) (cur_day - 10))
      as [init_b|] eqn:Eidx; [|discriminate].
    cbn [bind].
    match goal with
    | |- context [mapM ?f ?l] => destruct (mapM f l) as [scores|] eqn:Escores
    end; [|discriminate].
    cbn [bind].
    destruct (Py.max_list scores) as [m|] eqn:Em; [|discriminate].
    cbn [bind].
    destruct (Py.index_of scores m) as [i|] eqn:Ei; [|discriminate].
    cbn [bind].
    destruct (Py.index (Py.product (window_range self) (eps_range self))
                (Z.of_nat i)) as [[bw be]|] eqn:Ebest; [|discriminate].
    cbn [bind]. intros H. injection H as <-.
    cbn [base window_range eps_range window_hist eps_hist window eps].
    rewrite Eidx. cbn [bind]. rewrite Escores. cbn [bind].
    rewrite Em. cbn [bind]. rewrite Ei. cbn [bind]. rewrite Ebest.
    cbn [bind]. eexists. split; [reflexivity|]. split; reflexivity.
Qed.

End TunerErrors.

Lemma tune_empty_grid_raises_witness :
  (10 < 11)%Z /\
  tune_hyperparams base_init stored_results window_score olmar_no_eps 11
  = Raise ValueError.
Proof.
  split; [lia|].
  apply (tune_empty_grid_raises base_init stored_results window_score
           olmar_no_eps 11 uniform3).
  - lia.
  - reflexivity.
  - right. reflexivity.
Defined.


Lemma tune_result_invariants_witness :
  (10 < 11)%Z /\
  tune_hyperparams base_init stored_results window_score olmar_tuned 11
  = Ok olmar_tuned_after /\
  In (window olmar_tuned_after) (window_range olmar_tuned) /\
  1 < eps olmar_tuned_after.
Proof.
  assert (Ht : tune_hyperparams base_init stored_results window_score
                 olmar_tuned 11 = Ok olmar_tuned_after) by reflexivity.
  split; [lia|]. split; [exact Ht|].
  destruct (tune_result_invariants base_init stored_results window_score
              olmar_tuned olmar_tuned_after 11)
    as (Hw & _ & _ & He & _); [lia | exact Ht |].
  split; [exact Hw | exact He].
Defined.

Lemma tune_twice_same_choice_witness :
  exists o',
    tune_hyperparams base_init stored_results window_score
      olmar_tuned_after 11 = Ok o' /\
    window o' = 2%Z /\ eps o' = 12 # 10.
Proof.
  apply (tune_twice_same_choice base_init stored_results window_score
           olmar_tuned olmar_tuned_after 11).
  reflexivity.
Defined.

(** ** Stored results without a key *)

Lemma getitem_missing (d : list (string * Q)) (k : string) :
  (forall v, ~ In (k, v) d) -> Py.getitem d k = Raise (KeyError k).
Proof.
  induction d as [|[k' v] d IH]; intros H; cbn [Py.getitem].
  - reflexivity.
  - destruct (String.eqb k' k) eqn:E.
    + apply String.eqb_eq in E. subst k'.
      exfalso. apply (H v). now left.
    + apply IH. intros v' Hin. apply (H v'). now right.
Qed.

Section StoredResults.

Variable Portfolio_init :
  MarketData -> option MarketData -> Z -> option Z -> option (list Q) ->
  Portfolio.
Variable load_hyperparams : string -> list string -> list (string * Q).

(** X14: with valid arguments and [past_results_dir] given, stored
    results without the key 'Window' make the constructor raise
    [KeyError] for 'Window'; stored results with a window but without
    the key 'Epsilon' make it raise [KeyError] for 'Epsilon'.  The
    arguments are not used as a fallback. *)
Theorem OLMAR_init_missing_key (m : MarketData) (train : option MarketData)
    (start : Z) (stop : option Z) (w : Z) (e : Q) (wr : list Z)
    (er : list Q) (init_b : option (list Q)) (dir : string) :
  1 < e -> (1 <= w)%Z ->
  let hyperparams_dict := load_hyperparams dir ["Window"; "Epsilon"] in
  ((forall v, ~ In ("Window", v) hyperparams_dict) ->
   OLMAR_init Portfolio_init load_hyperparams m train start stop w e
     wr er init_b (Some dir) = Raise (KeyError "Window")) /\
  (forall sw, Py.getitem hyperparams_dict "Window" = Ok sw ->
   (forall v, ~ In ("Epsilon", v) hyperparams_dict) ->
   OLMAR_init Portfolio_init load_hyperparams m train start stop w e
     wr er init_b (Some dir) = Raise (KeyError "Epsilon")).
Proof.
  intros He Hw d. unfold OLMAR_init.
  destruct (Qle_bool e 1) eqn:E; [apply Qle_bool_iff in E; lra|].
  destruct (w <? 1)%Z eqn:E'; [apply Z.ltb_lt in E'; lia|].
  fold d. split.
  - intros Hmiss. rewrite (getitem_missing _ _ Hmiss). reflexivity.
  - intros sw Hsw Hmiss. rewrite Hsw. cbn [bind].
    rewrite (getitem_missing _ _ Hmiss). reflexivity.
Qed.

End StoredResults.

Lemma OLMAR_init_missing_key_witness :
  1 < 13 # 10 /\ (1 <= 10)%Z /\
  OLMAR_init base_init stored_nothing live3 None 0 None 10 (13 # 10)
    default_window_range default_eps_range None (Some "results")
  = Raise (KeyError "Window") /\
  OLMAR_init base_init stored_window_only live3 None 0 None 10 (13 # 10)
    default_window_range default_eps_range None (Some "results")
  = Raise (KeyError "Epsilon").
Proof.
  assert (He : 1 < 13 # 10) by reflexivity.
  assert (Hw : (1 <= 10)%Z) by lia.
  split; [exact He|]. split; [exact Hw|]. split.
  - apply (OLMAR_init_missing_key base_init stored_nothing live3 None 0 None
             10 (13 # 10) default_window_range default_eps_range None
             "results" He Hw).
    intros v [].
  - apply (proj2 (OLMAR_init_missing_key base_init stored_window_only live3
                    None 0 None 10 (13 # 10) default_window_range
                    default_eps_range None "results" He Hw) 7).
    + reflexivity.
    + intros v [H|[]]. discriminate H.
Defined.

(** ** A window below one *)

Lemma slice_empty {A : Type} (l : list A) (a b : Z) :
  (0 <= b <= a)%Z -> Py.slice l a b = [].
Proof.
  intros H. unfold Py.slice, Py.clip.
  destruct (a <? 0)%Z eqn:Ea; [apply Z.ltb_lt in Ea; lia|].
  destruct (b <? 0)%Z eqn:Eb; [apply Z.ltb_lt in Eb; lia|].
  replace (Z.to_nat (Z.min b (Py.len l) - Z.min a (Py.len l))) with 0%nat
    by lia.
  reflexivity.
Qed.

(** With an empty window the prediction is the opening price over
    itself, and the step size is 0. *)
Lemma empty_window_prediction (self : OLMAR) (day w : Z) (today_op : list Q) :
  get_window_prices self day (window self) = Ok (w, [], today_op) ->
  exists predicted,
    predict_price_relatives self day = Ok predicted /\
    (forall j, nth j predicted 0
               == if Util.available (nth j today_op 0) then 1 else 0) /\
    lam_of self predicted today_op == 0.
Proof.
  intros Hgwp.
  assert (Hval : forall j,
            nth j (Util.silent_divide (mean_axis0 [today_op]) today_op) 0
            == if Util.available (nth j today_op 0) then 1 else 0).
  { intros j. rewrite silent_divide_nth by apply mean_axis0_length.
    destruct (Util.available (nth j today_op 0)) eqn:Ea; [|reflexivity].
    apply Qlt_bool_iff in Ea.
    assert (Hj : (j < List.length today_op)%nat).
    { destruct (Nat.lt_ge_cases j (List.length today_op)); auto.
      rewrite nth_overflow in Ea by assumption. lra. }
    rewrite mean_axis0_nth by exact Hj.
    unfold mean, column. cbn. field. lra. }
  eexists.
  split; [unfold predict_price_relatives; rewrite Hgwp; reflexivity|].
  split; [exact Hval|].
  rewrite lam_zero_when_equal; [reflexivity|].
  intros x y Hx Hy. unfold ppr_avail_of, take in Hx, Hy.
  apply in_map_iff in Hx. destruct Hx as (i & <- & Hi).
  apply in_map_iff in Hy. destruct Hy as (i' & <- & Hi').
  unfold Util.get_available_inds in Hi, Hi'.
  apply filter_In in Hi. destruct Hi as [_ Hi].
  apply filter_In in Hi'. destruct Hi' as [_ Hi'].
  rewrite avail_stocks_nth in Hi, Hi'.
  rewrite (Hval i), (Hval i'), Hi, Hi'. reflexivity.
Qed.

(** X15: an instance whose window is 0 or negative, as stored results
    can give it, has an empty close-price window on every day of the
    live series: the predicted relative is 1 for every available asset
    and 0 for every other one, and the step size is 0, so the update
    never moves weight. *)
Theorem window_below_one_is_passive (self : OLMAR) (day : Z) :
  (window self <= 0)%Z ->
  (0 <= day < Py.len (get_op (data (base self))))%Z ->
  exists today_op predicted,
    get_window_prices self day (window self)
    = Ok (window self, [], today_op) /\
    predict_price_relatives self day = Ok predicted /\
    (forall j, nth j predicted 0
               == if Util.available (nth j today_op 0) then 1 else 0) /\
    lam_of self predicted today_op == 0.
Proof.
  intros Hw Hday.
  destruct (index_in_range _ _ Hday) as [today_op [Hidx _]].
  assert (Hgwp : get_window_prices self day (window self)
                 = Ok (window self, [], today_op)).
  { unfold get_window_prices. rewrite Hidx. cbn [bind].
    assert (E : (window self <=? day)%Z = true) by (apply Z.leb_le; lia).
    assert (E' : (day <? window self)%Z = false) by (apply Z.ltb_ge; lia).
    rewrite E, E'. rewrite slice_empty by lia.
    destruct (data_train (base self)); reflexivity. }
  destruct (empty_window_prediction self day _ today_op Hgwp)
    as (predicted & Hp & Hval & Hlam).
  exists today_op, predicted. auto.
Qed.

Lemma window_below_one_is_passive_witness :
  (0 <= 0)%Z /\
  exists predicted,
    predict_price_relatives (mk_olmar live3 None uniform3 3 0 (1 # 2)) 1
    = Ok predicted /\
    nth 0 predicted 0 == 1.
Proof.
  split; [lia|].
  destruct (window_below_one_is_passive
              (mk_olmar live3 None uniform3 3 0 (1 # 2)) 1)
    as (today_op & predicted & Hgwp & Hp & Hval & _).
  - cbn. lia.
  - cbn. lia.
  - vm_compute in Hgwp. injection Hgwp as <-.
    exists predicted. split; [exact Hp|].
    rewrite (Hval 0%nat). reflexivity.
Defined.
